(** * OutfAI: the outfit recommendation engine

    A shallow embedding of [server/services/outfitRecommendationService.ts]
    (class [OutfitRecommendationService]) and the properties of its
    filter / generate / score / rank pipeline.

    Modelling conventions.
    - JavaScript strings are [string]s of ASCII text; [toLowerCase] lowers the
      letters A-Z and leaves every other character alone.
    - Scores, temperatures, limits and clock readings are integers ([Z]).
    - A [Record<K, V>] literal is an association list read through [Js.get],
      which also sees the members every object literal inherits from
      [Object.prototype]; calling an array method on such a member throws,
      which is the only exception of the engine and is written [TypeError].
    - [Date.now()] and [new Date()] read an explicit clock: reading number
      [n] of a call returns [clock n]. *)

From Stdlib Require Import List String Ascii ZArith Lia Bool Arith.
From Stdlib Require Import Permutation Sorted.
From Stdlib Require Import Decimal DecimalString.
From Stdlib Require DecimalNat DecimalFacts.
Import ListNotations.

Open Scope string_scope.
Open Scope list_scope.
Open Scope Z_scope.

(* ================================================================= *)
(** ** JavaScript values and built-ins used by the service *)

Module Js.

(** Outcome of an expression that may throw. *)
Inductive result (A : Type) : Type :=
| Ok (a : A)
| TypeError.
Arguments Ok {A} a.
Arguments TypeError {A}.

Definition bind {A B} (r : result A) (k : A -> result B) : result B :=
  match r with
  | Ok a => k a
  | TypeError => TypeError
  end.

Definition map_result {A B} (f : A -> B) (r : result A) : result B :=
  bind r (fun a => Ok (f a)).

(** [String.prototype.toLowerCase] on ASCII text. *)
Definition lower_ascii (c : ascii) : ascii :=
  let n := nat_of_ascii c in
  if ((65 <=? n) && (n <=? 90))%nat then ascii_of_nat (n + 32) else c.

Fixpoint toLowerCase (s : string) : string :=
  match s with
  | EmptyString => EmptyString
  | String c r => String (lower_ascii c) (toLowerCase r)
  end.

(** [s.includes(sub)]: [sub] occurs in [s] as a contiguous substring. *)
Fixpoint includes (s sub : string) : bool :=
  String.prefix sub s
  || match s with
     | EmptyString => false
     | String _ r => includes r sub
     end.

(** [array.includes(x)] on an array of strings. *)
Definition mem (x : string) (l : list string) : bool :=
  existsb (String.eqb x) l.

(** [array.join(sep)]. *)
Fixpoint join (sep : string) (l : list string) : string :=
  match l with
  | [] => ""
  | [x] => x
  | x :: r => (x ++ sep ++ join sep r)%string
  end.

(** [[...new Set(l)]]: the distinct elements in order of first occurrence. *)
Fixpoint dedup_from (seen l : list string) : list string :=
  match l with
  | [] => []
  | x :: r => if mem x seen then dedup_from seen r
              else x :: dedup_from (x :: seen) r
  end.

Definition dedup (l : list string) : list string := dedup_from [] l.

(** [array.slice(0, e)]: a negative [e] counts from the end. *)
Definition slice0 {A} (l : list A) (e : Z) : list A :=
  if e <? 0
  then firstn (Z.to_nat (Z.max (Z.of_nat (List.length l) + e) 0)) l
  else firstn (Z.to_nat e) l.

(** [array.map((x, index) => ...)]. *)
Fixpoint mapi_from {A B} (i : nat) (f : nat -> A -> B) (l : list A) : list B :=
  match l with
  | [] => []
  | x :: r => f i x :: mapi_from (S i) f r
  end.

Definition mapi {A B} (f : nat -> A -> B) (l : list A) : list B :=
  mapi_from 0 f l.

(** Number to string conversion of template literals. *)
Definition string_of_nat (n : nat) : string :=
  NilZero.string_of_uint (Nat.to_uint n).

Definition string_of_Z (z : Z) : string :=
  NilZero.string_of_int (Z.to_int z).

(** Truthiness of an optional string: [undefined] and [""] are falsy. *)
Definition truthy (o : option string) : bool :=
  match o with
  | Some s => negb (s =? "")%string
  | None => false
  end.

(** The names every object literal inherits from [Object.prototype]. *)
Definition ObjectPrototypeKeys : list string :=
  [ "constructor"; "__defineGetter__"; "__defineSetter__"; "hasOwnProperty";
    "__lookupGetter__"; "__lookupSetter__"; "isPrototypeOf";
    "propertyIsEnumerable"; "toString"; "valueOf"; "__proto__";
    "toLocaleString" ].

(** What [record[key]] evaluates to. *)
Inductive member (A : Type) : Type :=
| Own (a : A)            (* a property written in the literal *)
| Inherited (k : string) (* a member of [Object.prototype] *)
| Undefined.
Arguments Own {A} a.
Arguments Inherited {A} k.
Arguments Undefined {A}.

Fixpoint assoc {A} (k : string) (rec : list (string * A)) : option A :=
  match rec with
  | [] => None
  | (k', a) :: r => if (k =? k')%string then Some a else assoc k r
  end.

Definition get {A} (rec : list (string * A)) (k : string) : member A :=
  match assoc k rec with
  | Some a => Own a
  | None => if mem k ObjectPrototypeKeys then Inherited k else Undefined
  end.

(** [record[key] || d] where every own value is truthy (an array, or a
    non-empty string); an inherited member is an object, hence truthy. *)
Definition or_else {A} (m : member A) (d : A) : member A :=
  match m with
  | Undefined => Own d
  | _ => m
  end.

(** [v.some(p)] and [v.includes(x)]: array methods, absent from functions
    and from [Object.prototype]. *)
Definition some (v : member (list string)) (p : string -> bool) : result bool :=
  match v with
  | Own l => Ok (existsb p l)
  | _ => TypeError
  end.

Definition includes_of (v : member (list string)) (x : string) : result bool :=
  match v with
  | Own l => Ok (mem x l)
  | _ => TypeError
  end.

(** [v?.includes(x) || false]: only an [undefined] receiver short-circuits. *)
Definition opt_includes_or_false (v : member (list string)) (x : string)
  : result bool :=
  match v with
  | Own l => Ok (mem x l)
  | Undefined => Ok false
  | Inherited _ => TypeError
  end.

(** [v.length === 0]. The inherited functions [toString], [valueOf] and
    [toLocaleString] take no parameter, so their [length] is 0; the other
    inherited functions have a positive [length] and [__proto__] has none. *)
Definition length_is_zero (v : member (list string)) : bool :=
  match v with
  | Own l => (List.length l =? 0)%nat
  | Inherited k => mem k ["toString"; "valueOf"; "toLocaleString"]
  | Undefined => false
  end.

(** [String(v)] for an inherited member, as Node.js prints it. *)
Definition native_text (k : string) : string :=
  if (k =? "__proto__")%string then "[object Object]"
  else if (k =? "constructor")%string then "function Object() { [native code] }"
  else ("function " ++ k ++ "() { [native code] }")%string.

(** [array.filter(p)] and [for ... of] loops whose body may throw. *)
Fixpoint filterM {A} (p : A -> result bool) (l : list A) : result (list A) :=
  match l with
  | [] => Ok []
  | x :: r =>
      bind (p x) (fun keep =>
      bind (filterM p r) (fun r' =>
      Ok (if keep then x :: r' else r')))
  end.

Fixpoint foldM {A S} (body : S -> A -> result S) (l : list A) (s : S)
  : result S :=
  match l with
  | [] => Ok s
  | x :: r => bind (body s x) (foldM body r)
  end.

Fixpoint mapM {A B} (f : A -> result B) (l : list A) : result (list B) :=
  match l with
  | [] => Ok []
  | x :: r =>
      bind (f x) (fun y =>
      bind (mapM f r) (fun r' =>
      Ok (y :: r')))
  end.

Fixpoint flat_mapM {A B} (f : A -> result (list B)) (l : list A)
  : result (list B) :=
  match l with
  | [] => Ok []
  | x :: r =>
      bind (f x) (fun ys =>
      bind (flat_mapM f r) (fun r' =>
      Ok (ys ++ r')))
  end.

End Js.

Import Js.

Notation "x <- e ;; k" := (Js.bind e (fun x => k))
  (at level 61, e at next level, right associativity).

(* ================================================================= *)
(** ** Data model ([shared/types]) *)

(** The service imports its types from [shared/types], a file that is not
    among the sources. Each of them is declared below with the fields the
    service reads or writes and the values the request validator of the
    recommendation router lists. *)

(** Modelled from the spec: the enumeration [GarmentCategory] of
    [shared/types]: five categories, under the names the service and the
    router's validator give them. *)
Inductive GarmentCategory : Type :=
| tops | bottoms | shoes | outerwear | accessories.

Definition category_eqb (a b : GarmentCategory) : bool :=
  match a, b with
  | tops, tops | bottoms, bottoms | shoes, shoes
  | outerwear, outerwear | accessories, accessories => true
  | _, _ => false
  end.

Module Garment.
(** Modelled from the spec: the type [Garment] of [shared/types], reduced to
    the fields the service reads; [material] is optional, [season] and the
    colour are plain text. *)
Record t : Type := mk {
  id : string;
  category : GarmentCategory;
  primaryColor : string;
  material : option string;
  season : string;
  tags : list string
}.
End Garment.

Module Input.
(** Modelled from the spec: the type [RecommendationInput] of
    [shared/types]; every field but [userId] is optional, and [mood] and
    [weather] are strings at run time. *)
Record t : Type := mk {
  userId : string;
  mood : option string;
  weather : option string;
  temperature : option Z;
  occasion : option string;
  limitCount : option Z
}.
End Input.

(** An element of a [reasons] array: text, or the inherited member that
    [moodDescriptions[mood]] evaluates to for a mood such as ["toString"]. *)
Inductive reason : Type :=
| Text (s : string)
| Native (k : string).

Definition reason_text (r : reason) : string :=
  match r with
  | Text s => s
  | Native k => native_text k
  end.

Module Candidate.
(** [OutfitCandidate]. *)
Record t : Type := mk {
  garmentIds : list string;
  score : Z;
  reasons : list reason
}.
End Candidate.

Module Outfit.
(** Modelled from the spec: the type [Outfit] of [shared/types], with the
    fields [generateOutfits] fills in; [createdAt] is the time read. *)
Record t : Type := mk {
  id : string;
  userId : string;
  garmentIds : list string;
  contextWeather : option string;
  contextMood : option string;
  explanation : string;
  score : Z;
  createdAt : Z
}.
End Outfit.

Module Output.
(** Modelled from the spec: the type [RecommendationOutput] of
    [shared/types]. *)
Record t : Type := mk {
  outfits : list Outfit.t;
  explanation : string;
  totalGenerated : Z
}.
End Output.

(** [Map<GarmentCategory, Garment[]>] in insertion order. *)
Definition CategoryMap : Type := list (GarmentCategory * list Garment.t).

Fixpoint map_get (m : CategoryMap) (k : GarmentCategory) : option (list Garment.t) :=
  match m with
  | [] => None
  | (k', v) :: r => if category_eqb k k' then Some v else map_get r k
  end.

Definition map_has (m : CategoryMap) (k : GarmentCategory) : bool :=
  match map_get m k with
  | Some _ => true
  | None => false
  end.

Fixpoint map_set (m : CategoryMap) (k : GarmentCategory) (v : list Garment.t)
  : CategoryMap :=
  match m with
  | [] => [(k, v)]
  | (k', v') :: r =>
      if category_eqb k k' then (k, v) :: r else (k', v') :: map_set r k v
  end.

(** [categories.get(k) || []]. *)
Definition get_or_nil (m : CategoryMap) (k : GarmentCategory) : list Garment.t :=
  match map_get m k with
  | Some v => v
  | None => []
  end.

(* ================================================================= *)
(** ** The service *)

Definition MIN_SCORE_THRESHOLD : Z := 60.

Definition weatherSeasonMap : list (string * list string) :=
  [ ("sunny", ["spring"; "summer"; "all-season"]);
    ("cloudy", ["spring"; "summer"; "fall"; "all-season"]);
    ("rainy", ["spring"; "fall"; "winter"; "all-season"]);
    ("snowy", ["winter"; "all-season"]);
    ("windy", ["fall"; "winter"; "all-season"]);
    ("hot", ["summer"; "all-season"]);
    ("cold", ["winter"; "all-season"]) ].

(** [isSeasonAppropriate]; the [temperature] argument is not read. *)
Definition isSeasonAppropriate (garmentSeason weather : string)
    (temperature : option Z) : result bool :=
  if (garmentSeason =? "all-season")%string then Ok true
  else opt_includes_or_false (get weatherSeasonMap weather) garmentSeason.

(** [garment.material?.toLowerCase() || ""]. *)
Definition material_lower (g : Garment.t) : string :=
  match Garment.material g with
  | Some m => toLowerCase m
  | None => ""
  end.

Definition coldWeatherMaterials : list string :=
  ["wool"; "fleece"; "down"; "synthetic"].

Definition isTemperatureAppropriate (garment : Garment.t) (temperature : Z)
  : bool :=
  let material := material_lower garment in
  let category := Garment.category garment in
  if temperature >? 25 then
    if category_eqb category outerwear
       || includes material "wool"
       || includes material "fleece"
    then false
    else true
  else if temperature <? 10 then
    let isColdAppropriate :=
      existsb (fun m => includes material m) coldWeatherMaterials
      || category_eqb category outerwear in
    isColdAppropriate
  else true.

Definition filterByContext (garments : list Garment.t) (input : Input.t)
  : result (list Garment.t) :=
  filterM
    (fun garment =>
       seasonOk <-
         match Input.weather input with
         | Some weather =>
             if truthy (Some weather)
             then isSeasonAppropriate (Garment.season garment) weather
                    (Input.temperature input)
             else Ok true
         | None => Ok true
         end ;;
       if negb seasonOk then Ok false
       else
         match Input.temperature input with
         | Some temperature =>
             if negb (isTemperatureAppropriate garment temperature)
             then Ok false
             else Ok true
         | None => Ok true
         end)
    garments.

Definition groupByCategory (garments : list Garment.t) : CategoryMap :=
  fold_left
    (fun grouped garment =>
       let k := Garment.category garment in
       let grouped := if negb (map_has grouped k) then map_set grouped k []
                      else grouped in
       map_set grouped k (get_or_nil grouped k ++ [garment]))
    garments [].

(** *** Scoring *)

Definition styleKeywords : list string :=
  ["minimalist"; "bold"; "classic"; "trendy"; "avant-garde"; "casual"].

Definition extractStyles (tags : list string) : list string :=
  filter (fun tag => existsb (fun keyword => includes tag keyword) styleKeywords)
    tags.

(** [l.filter((x, index) => l.slice(index + 1).includes(x))]. *)
Fixpoint repeated_later (l : list string) : list string :=
  match l with
  | [] => []
  | x :: r => if mem x r then x :: repeated_later r else repeated_later r
  end.

Definition scoreStyleCoherence (garments : list Garment.t) : Z :=
  if (List.length garments <? 2)%nat then 0
  else
    let allStyles := flat_map (fun g => extractStyles (Garment.tags g)) garments in
    if (List.length allStyles =? 0)%nat then 5
    else
      let styleMatches := repeated_later allStyles in
      if (0 <? List.length styleMatches)%nat then 15
      else
        let hasMinimalist := existsb (fun s => includes s "minimalist") allStyles in
        let hasBold := existsb (fun s => includes s "bold") allStyles in
        let hasClassic := existsb (fun s => includes s "classic") allStyles in
        if (hasMinimalist && hasClassic) || (hasBold && hasClassic) then 10
        else 5.

Definition moodToOccasion : list (string * list string) :=
  [ ("casual", ["casual"; "weekend"]);
    ("formal", ["formal"; "work"; "night"]);
    ("adventurous", ["weekend"; "casual"]);
    ("cozy", ["casual"; "weekend"]);
    ("energetic", ["casual"; "work"]);
    ("minimalist", ["work"; "smart-casual"; "formal"]);
    ("bold", ["night"; "weekend"; "casual"]) ].

Definition occasionTags : list string :=
  ["casual"; "formal"; "work"; "smart-casual"; "night"; "weekend"].

Definition scoreOccasionMatching (garments : list Garment.t) (mood : string)
  : result Z :=
  let targetOccasions := or_else (get moodToOccasion mood) [] in
  if length_is_zero targetOccasions then Ok 0
  else
    matchScore <-
      foldM
        (fun matchScore garment =>
           let garmentOccasions :=
             filter (fun tag => mem tag occasionTags) (Garment.tags garment) in
           matched <-
             filterM (fun occ => includes_of targetOccasions occ)
               garmentOccasions ;;
           let matches := Z.of_nat (List.length matched) in
           Ok (matchScore + matches * 2))
        garments 0 ;;
    Ok (Z.min matchScore 12).

Definition scoreVersatility (garments : list Garment.t) : Z :=
  let versatilityScore :=
    fold_left
      (fun versatilityScore garment =>
         if mem "versatile-high" (Garment.tags garment)
         then versatilityScore + 2
         else if mem "versatile-medium" (Garment.tags garment)
              then versatilityScore + 1
              else versatilityScore)
      garments 0 in
  Z.min versatilityScore 8.

Definition complementaryPairs : list (string * string) :=
  [ ("blue", "orange"); ("red", "green"); ("yellow", "purple") ].

Definition neutrals : list string :=
  ["black"; "white"; "gray"; "beige"; "navy"].

Definition scoreColorHarmony (garments : list Garment.t) : Z :=
  if (List.length garments <? 2)%nat then 0
  else
    let colors := map (fun g => toLowerCase (Garment.primaryColor g)) garments in
    let harmonyScore :=
      fold_left
        (fun harmonyScore pair =>
           if mem (fst pair) colors && mem (snd pair) colors
           then harmonyScore + 15
           else harmonyScore)
        complementaryPairs 0 in
    let harmonyScore :=
      if forallb (fun c => (c =? hd "" colors)%string) colors
      then harmonyScore + 10
      else harmonyScore in
    let neutralCount :=
      Z.of_nat (List.length (filter (fun c => mem c neutrals) colors)) in
    let harmonyScore :=
      if neutralCount >=? Z.of_nat (List.length colors) - 1
      then harmonyScore + 8
      else harmonyScore in
    Z.min harmonyScore 20.

Definition moodTags : list (string * list string) :=
  [ ("casual", ["cotton"; "denim"; "relaxed"]);
    ("formal", ["silk"; "wool"; "structured"]);
    ("adventurous", ["bold"; "colorful"; "unique"]);
    ("cozy", ["fleece"; "warm"; "soft"]);
    ("energetic", ["bright"; "bold"; "dynamic"]);
    ("minimalist", ["neutral"; "simple"; "clean"]);
    ("bold", ["vibrant"; "statement"; "eye-catching"]) ].

Definition scoreMoodAlignment (garments : list Garment.t) (mood : string)
  : result Z :=
  let targetTags := or_else (get moodTags mood) [] in
  score <-
    foldM
      (fun score garment =>
         let garmentTags :=
           material_lower garment :: map toLowerCase (Garment.tags garment) in
         matched <-
           filterM
             (fun t => some targetTags (fun target => includes t target))
             garmentTags ;;
         let matches := Z.of_nat (List.length matched) in
         Ok (score + matches * 3))
      garments 0 ;;
  Ok (Z.min score 20).

Definition scoreDiversity (garments : list Garment.t) : Z :=
  if (3 <=? List.length garments)%nat then 10 else 5.

(** [scoreOutfit]; [allGarments] is not read. *)
Definition scoreOutfit (garments : list Garment.t) (mood : string)
    (allGarments : list Garment.t) : result Z :=
  let score := 0 in
  let score := score + 50 in
  let colorScore := scoreColorHarmony garments in
  let score := score + colorScore in
  moodScore <- scoreMoodAlignment garments mood ;;
  let score := score + moodScore in
  let styleScore := scoreStyleCoherence garments in
  let score := score + styleScore in
  occasionScore <- scoreOccasionMatching garments mood ;;
  let score := score + occasionScore in
  let versatilityScore := scoreVersatility garments in
  let score := score + versatilityScore in
  let diversityScore := scoreDiversity garments in
  let score := score + diversityScore in
  Ok (Z.min score 100).

(** *** Reasons *)

Definition moodDescriptions : list (string * string) :=
  [ ("casual", "Perfect for a relaxed day");
    ("formal", "Polished and professional");
    ("adventurous", "Ready for an adventure");
    ("cozy", "Comfortable and warm");
    ("energetic", "Energizing and uplifting");
    ("minimalist", "Clean and simple");
    ("bold", "Statement-making outfit") ].

(** [moodDescriptions[mood] || "Well-coordinated look"], as pushed. *)
Definition moodDescription (mood : string) : reason :=
  match or_else (get moodDescriptions mood) "Well-coordinated look" with
  | Own s => Text s
  | Inherited k => Native k
  | Undefined => Text "Well-coordinated look"
  end.

Definition generateReasons (garments : list Garment.t) (mood : string)
  : list reason :=
  let reasons := [] in
  let reasons :=
    if (3 <=? List.length garments)%nat
    then reasons ++ [Text ("Well-balanced outfit with "
                           ++ string_of_nat (List.length garments)
                           ++ " pieces")%string]
    else reasons in
  let hasNeutral :=
    existsb
      (fun g => mem (toLowerCase (Garment.primaryColor g))
                  ["black"; "white"; "gray"; "navy"; "beige"])
      garments in
  let reasons :=
    if hasNeutral then reasons ++ [Text "Neutral base for easy coordination"]
    else reasons in
  let allStyles :=
    flat_map
      (fun g =>
         filter
           (fun t => mem t ["minimalist"; "bold"; "classic"; "trendy";
                            "avant-garde"])
           (Garment.tags g))
      garments in
  let uniqueStyles := dedup allStyles in
  let reasons :=
    if (List.length uniqueStyles =? 1)%nat
    then reasons ++ [Text ("Cohesive " ++ hd "" uniqueStyles ++ " aesthetic")%string]
    else if mem "classic" uniqueStyles
            && (mem "bold" uniqueStyles || mem "minimalist" uniqueStyles)
         then reasons ++ [Text "Classic foundation with modern twist"]
         else reasons in
  let allOccasions :=
    flat_map
      (fun g => filter (fun t => mem t occasionTags) (Garment.tags g))
      garments in
  let commonOccasions := dedup allOccasions in
  let reasons :=
    if mem "formal" commonOccasions
    then reasons ++ [Text "Polished and put-together"]
    else if mem "casual" commonOccasions
         then reasons ++ [Text "Comfortable and approachable"]
         else reasons in
  let versatilePieces :=
    List.length
      (filter (fun g => mem "versatile-high" (Garment.tags g)) garments) in
  let reasons :=
    if (2 <=? versatilePieces)%nat
    then reasons ++ [Text "Mix-and-match friendly pieces"]
    else reasons in
  reasons ++ [moodDescription mood].

(** *** Candidate generation *)

(** The stand-in [{ id: "barefoot", category: "shoes" }]; it carries no other
    field and only its [id] is read. *)
Definition barefoot : Garment.t :=
  Garment.mk "barefoot" shoes "" None "" [].

(** [generateCandidates]. The candidates are listed in the order in which
    the nested loops push them: for each top, for each bottom, first the
    loop over [shoesToTry], then the loop over the first two accessories.
    A throwing [scoreOutfit] ends the whole generation. *)
Definition generateCandidates (garments : list Garment.t) (mood : string)
  : result (list Candidate.t) :=
  let categories := groupByCategory garments in
  let tops_ := get_or_nil categories tops in
  let bottoms_ := get_or_nil categories bottoms in
  let shoes_ := get_or_nil categories shoes in
  if (List.length tops_ =? 0)%nat || (List.length bottoms_ =? 0)%nat
  then Ok []
  else
    flat_mapM
      (fun top =>
         flat_mapM
           (fun bottom =>
              let shoesToTry :=
                if (0 <? List.length shoes_)%nat then shoes_ else [barefoot] in
              withShoes <-
                mapM
                  (fun shoe =>
                     let isBarefoot := (Garment.id shoe =? "barefoot")%string in
                     let garmentIds :=
                       [Garment.id top; Garment.id bottom]
                       ++ (if negb isBarefoot then [Garment.id shoe] else []) in
                     let outfitPieces :=
                       if isBarefoot then [top; bottom]
                       else [top; bottom; shoe] in
                     score <- scoreOutfit outfitPieces mood garments ;;
                     let reasons := generateReasons outfitPieces mood in
                     Ok (Candidate.mk garmentIds score reasons))
                  shoesToTry ;;
              let accessories_ := get_or_nil categories accessories in
              withAccessory <-
                mapM
                  (fun accessory =>
                     let garmentIds :=
                       [Garment.id top; Garment.id bottom]
                       ++ (if (0 <? List.length shoes_)%nat
                           then [Garment.id (hd barefoot shoes_)] else [])
                       ++ [Garment.id accessory] in
                     let pieces :=
                       [top; bottom] ++ firstn 1 shoes_ ++ [accessory] in
                     score <- scoreOutfit pieces mood garments ;;
                     let reasons := generateReasons pieces mood in
                     Ok (Candidate.mk garmentIds score reasons))
                  (firstn 2 accessories_) ;;
              Ok (withShoes ++ withAccessory))
           bottoms_)
      tops_.

(** *** Ranking *)

(** [candidates.sort((a, b) => b.score - a.score)]. [Array.prototype.sort]
    is stable, so its result is determined by the comparator: descending by
    score, candidates of equal score in their order of generation. The
    insertion below computes that list: [c], which precedes every element
    of [l], moves behind [d] only when the comparator puts [d] first. *)
Fixpoint insert_desc (c : Candidate.t) (l : list Candidate.t) : list Candidate.t :=
  match l with
  | [] => [c]
  | d :: r =>
      if Candidate.score d - Candidate.score c >? 0 then d :: insert_desc c r
      else c :: d :: r
  end.

Definition sort_desc (l : list Candidate.t) : list Candidate.t :=
  fold_right insert_desc [] l.

Definition generateExplanation (input : Input.t) : string :=
  let parts := [] in
  let parts :=
    match Input.weather input with
    | Some w => if truthy (Some w)
                then parts ++ [("Recommended for " ++ w ++ " weather")%string]
                else parts
    | None => parts
    end in
  let parts :=
    match Input.mood input with
    | Some m => if truthy (Some m)
                then parts ++ [("with a " ++ m ++ " vibe")%string]
                else parts
    | None => parts
    end in
  let parts :=
    match Input.temperature input with
    | Some t => parts ++ [("(" ++ string_of_Z t ++ "°C)")%string]
    | None => parts
    end in
  if (List.length parts =? 0)%nat
  then "Outfit recommendations based on your wardrobe."
  else ("Outfit recommendations " ++ join " " parts
        ++ ". Mix and match pieces or shuffle for more options.")%string.

(** [input.mood || "casual"]. *)
Definition mood_or_casual (input : Input.t) : string :=
  match Input.mood input with
  | Some m => if truthy (Some m) then m else "casual"
  | None => "casual"
  end.

(** [input.limitCount || 6]: [undefined] and [0] are falsy. *)
Definition limit_or_6 (input : Input.t) : Z :=
  match Input.limitCount input with
  | Some n => if n =? 0 then 6 else n
  | None => 6
  end.

Definition rank (candidates : list Candidate.t) (input : Input.t)
  : list Candidate.t :=
  slice0
    (filter (fun candidate => Candidate.score candidate >=? MIN_SCORE_THRESHOLD)
       (sort_desc candidates))
    (limit_or_6 input).

(** One element of [rankedCandidates.map((candidate, index) => ...)]: the
    outfit at [index] reads the clock twice, for [id] and for [createdAt]. *)
Definition toOutfit (clock : nat -> Z) (input : Input.t) (index : nat)
    (candidate : Candidate.t) : Outfit.t :=
  {| Outfit.id := ("outfit-" ++ string_of_Z (clock (2 * index)%nat) ++ "-"
                   ++ string_of_nat index)%string;
     Outfit.userId := Input.userId input;
     Outfit.garmentIds := Candidate.garmentIds candidate;
     Outfit.contextWeather := Input.weather input;
     Outfit.contextMood := Input.mood input;
     Outfit.explanation :=
       join " • " (map reason_text (Candidate.reasons candidate));
     Outfit.score := Candidate.score candidate;
     Outfit.createdAt := clock (2 * index + 1)%nat |}.

(** [generateOutfits]. The wardrobe is always an array here, so that
    [!garments] is false and the first test is the one on its length. *)
Definition generateOutfits (clock : nat -> Z) (garments : list Garment.t)
    (input : Input.t) : result Output.t :=
  if (List.length garments =? 0)%nat then
    Ok {| Output.outfits := [];
          Output.explanation :=
            "No garments found in wardrobe. Please add items first.";
          Output.totalGenerated := 0 |}
  else
    filteredGarments <- filterByContext garments input ;;
    if (List.length filteredGarments =? 0)%nat then
      Ok {| Output.outfits := [];
            Output.explanation :=
              "No suitable outfits found for the current weather and mood combination.";
            Output.totalGenerated := 0 |}
    else
      candidates <- generateCandidates filteredGarments (mood_or_casual input) ;;
      let rankedCandidates := rank candidates input in
      if (List.length rankedCandidates =? 0)%nat then
        Ok {| Output.outfits := [];
              Output.explanation :=
                "No high-quality outfit combinations found. Try adjusting your mood, weather, or add more items to your closet.";
              Output.totalGenerated := 0 |}
      else
        let outfits := mapi (toOutfit clock input) rankedCandidates in
        Ok {| Output.outfits := outfits;
              Output.explanation := generateExplanation input;
              Output.totalGenerated := Z.of_nat (List.length outfits) |}.

(* ================================================================= *)
(** ** Specification vocabulary *)

(** [text] contains the lower-case keyword [kw] up to the case of letters. *)
Definition contains_ci (text kw : string) : Prop :=
  exists pre w post, text = (pre ++ w ++ post)%string /\ toLowerCase w = kw.

(** The material text of a garment, empty when the garment has none. *)
Definition material_text (g : Garment.t) : string :=
  match Garment.material g with
  | Some m => m
  | None => ""
  end.

(** The garments of one category, in wardrobe order. *)
Definition of_category (c : GarmentCategory) (gs : list Garment.t)
  : list Garment.t :=
  filter (fun g => category_eqb c (Garment.category g)) gs.





Definition opt_list {A} (o : option A) : list A :=
  match o with
  | Some a => [a]
  | None => []
  end.

(** [pieces] is one top and one bottom of the wardrobe [gs], then at most
    one of its shoes, then at most one of its accessories. *)
Definition composed_of (gs pieces : list Garment.t) : Prop :=
  exists top bottom shoe accessory,
    (In top gs /\ Garment.category top = tops)
    /\ (In bottom gs /\ Garment.category bottom = bottoms)
    /\ (forall s, shoe = Some s -> In s gs /\ Garment.category s = shoes)
    /\ (forall a, accessory = Some a ->
                  In a gs /\ Garment.category a = accessories)
    /\ pieces = [top; bottom] ++ opt_list shoe ++ opt_list accessory.




(** The explanations of the three outcomes without outfits. *)
Definition empty_wardrobe_message : string :=
  "No garments found in wardrobe. Please add items first.".

Definition no_suitable_message : string :=
  "No suitable outfits found for the current weather and mood combination.".

Definition no_quality_message : string :=
  "No high-quality outfit combinations found. Try adjusting your mood, weather, or add more items to your closet.".

Definition empty_result (message : string) : Output.t :=
  {| Output.outfits := [];
     Output.explanation := message;
     Output.totalGenerated := 0 |}.

(** The terminal states of one request. *)
Inductive outcome (clock : nat -> Z) (gs : list Garment.t) (input : Input.t)
  : Output.t -> Prop :=
| EmptyWardrobe :
    gs = [] ->
    outcome clock gs input (empty_result empty_wardrobe_message)
| NoEligibleGarments :
    gs <> [] ->
    filterByContext gs input = Ok [] ->
    outcome clock gs input (empty_result no_suitable_message)
| NoQualifyingOutfits (fs : list Garment.t) (cs : list Candidate.t) :
    gs <> [] ->
    filterByContext gs input = Ok fs -> fs <> [] ->
    generateCandidates fs (mood_or_casual input) = Ok cs ->
    rank cs input = [] ->
    outcome clock gs input (empty_result no_quality_message)
| Recommended (fs : list Garment.t) (cs : list Candidate.t) :
    gs <> [] ->
    filterByContext gs input = Ok fs -> fs <> [] ->
    generateCandidates fs (mood_or_casual input) = Ok cs ->
    rank cs input <> [] ->
    outcome clock gs input
      {| Output.outfits := mapi (toOutfit clock input) (rank cs input);
         Output.explanation := generateExplanation input;
         Output.totalGenerated :=
           Z.of_nat (List.length (mapi (toOutfit clock input) (rank cs input))) |}.

(** *** Sample data: [MOCK_GARMENTS] of the recommendation router *)

Definition blue_linen_shirt : Garment.t :=
  Garment.mk "g1" tops "blue" (Some "linen") "summer" ["casual"; "breathable"].
Definition black_skinny_jeans : Garment.t :=
  Garment.mk "g2" bottoms "black" (Some "denim") "all-season"
    ["versatile"; "classic"].
Definition white_sneakers : Garment.t :=
  Garment.mk "g3" shoes "white" (Some "canvas") "all-season"
    ["casual"; "comfortable"].
Definition wool_sweater : Garment.t :=
  Garment.mk "g4" tops "gray" (Some "wool") "winter" ["warm"; "cozy"].
Definition khaki_chinos : Garment.t :=
  Garment.mk "g5" bottoms "beige" (Some "cotton") "spring"
    ["versatile"; "professional"].
Definition leather_jacket : Garment.t :=
  Garment.mk "g6" outerwear "black" (Some "leather") "fall"
    ["bold"; "statement"].
Definition cotton_tshirt : Garment.t :=
  Garment.mk "g7" tops "white" (Some "cotton") "summer"
    ["basic"; "comfortable"].
Definition gold_necklace : Garment.t :=
  Garment.mk "g8" accessories "gold" (Some "metal") "all-season"
    ["statement"; "elegant"].

Definition MOCK_GARMENTS : list Garment.t :=
  [ blue_linen_shirt; black_skinny_jeans; white_sneakers; wool_sweater;
    khaki_chinos; leather_jacket; cotton_tshirt; gold_necklace ].

(** A request of ["user1"] with the given mood, weather and limit. *)
Definition request (mood weather : option string) (limitCount : option Z)
  : Input.t :=
  Input.mk "user1" mood weather None None limitCount.

(** A clock that advances by one millisecond at every reading. *)
Definition ticking (start : Z) (n : nat) : Z := start + Z.of_nat n.

(** The documented enumerations, as the keys of the lookup tables. *)
Definition Moods : list string := map fst moodTags.

Definition WeatherConditions : list string := map fst weatherSeasonMap.

(** The closing description of a request: the one of its mood, the one of
    "casual" when no mood (or an empty one) is given, and the generic text
    for any other mood. *)
Definition closing_description (mood : option string) : string :=
  match mood with
  | None => "Perfect for a relaxed day"
  | Some m =>
      if (m =? "")%string then "Perfect for a relaxed day"
      else if (m =? "casual")%string then "Perfect for a relaxed day"
      else if (m =? "formal")%string then "Polished and professional"
      else if (m =? "adventurous")%string then "Ready for an adventure"
      else if (m =? "cozy")%string then "Comfortable and warm"
      else if (m =? "energetic")%string then "Energizing and uplifting"
      else if (m =? "minimalist")%string then "Clean and simple"
      else if (m =? "bold")%string then "Statement-making outfit"
      else "Well-coordinated look"
  end.

(** An outfit without its stamps ([id] and [createdAt]), and a response
    with its outfits unstamped. *)
Definition unstamped (o : Outfit.t)
  : string * list string * option string * option string * string * Z :=
  (Outfit.userId o, Outfit.garmentIds o, Outfit.contextWeather o,
   Outfit.contextMood o, Outfit.explanation o, Outfit.score o).

Definition observable (out : Output.t) :=
  (map unstamped (Output.outfits out), Output.explanation out,
   Output.totalGenerated out).


(** The two checks of the context filter, as a request applies them to a
    garment: the season check when the request has a weather, the
    temperature check when it has a temperature. *)
Definition season_suits (input : Input.t) (g : Garment.t) : Prop :=
  forall w, Input.weather input = Some w -> w <> "" ->
            isSeasonAppropriate (Garment.season g) w (Input.temperature input)
            = Ok true.

Definition temperature_suits (input : Input.t) (g : Garment.t) : Prop :=
  forall t, Input.temperature input = Some t ->
            isTemperatureAppropriate g t = true.

(** What the grouping loop maintains: distinct keys, no empty group, and
    the garments seen so far spread over the groups. *)
Definition grouped (m : CategoryMap) (seen : list Garment.t) : Prop :=
  NoDup (map fst m)
  /\ (forall c, map_get m c <> Some [])
  /\ Permutation (List.concat (map snd m)) seen.

(* ================================================================= *)
(** ** The closet: [closetItemToGarment] (lib/closet-to-garment) *)

Module ClosetItem.

(** The interface [ClosetItem] and the literal types of its fields. *)
Inductive Category : Type := top | bottom | shoes | outerwear.
Inductive Versatility : Type := high | medium | low.
Inductive Vibrancy : Type := muted | balanced | vibrant.

Record Traits : Type := mkTraits {
  style : list string;
  fit : string;
  occasion : list string;
  versatility : Versatility;
  vibrancy : Vibrancy
}.

Record t : Type := mk {
  id : string;
  src : string;
  name : string;
  category : Category;
  color : string;
  traits : option Traits
}.

(** The text of each literal. *)
Definition category_text (c : Category) : string :=
  match c with
  | top => "top"
  | bottom => "bottom"
  | shoes => "shoes"
  | outerwear => "outerwear"
  end.

Definition versatility_text (v : Versatility) : string :=
  match v with
  | high => "high"
  | medium => "medium"
  | low => "low"
  end.

Definition vibrancy_text (v : Vibrancy) : string :=
  match v with
  | muted => "muted"
  | balanced => "balanced"
  | vibrant => "vibrant"
  end.

End ClosetItem.

(** [categoryMap[item.category]]: the key is one of the four literals. *)
Definition categoryMap (c : ClosetItem.Category) : GarmentCategory :=
  match c with
  | ClosetItem.top => tops
  | ClosetItem.bottom => bottoms
  | ClosetItem.shoes => shoes
  | ClosetItem.outerwear => outerwear
  end.

(** [inferSeason]; the [category] argument is not read. *)
Definition inferSeason (name : string) (category : ClosetItem.Category)
  : string :=
  let nameLower := toLowerCase name in
  if includes nameLower "wool"
     || includes nameLower "sweater"
     || includes nameLower "coat"
     || includes nameLower "jacket"
  then "winter"
  else if includes nameLower "linen"
          || includes nameLower "cotton"
          || includes nameLower "light"
       then "summer"
       else "all-season".

Definition inferMaterial (name : string) : string :=
  let nameLower := toLowerCase name in
  if includes nameLower "wool" then "wool"
  else if includes nameLower "cotton" then "cotton"
  else if includes nameLower "linen" then "linen"
  else if includes nameLower "cashmere" then "cashmere"
  else if includes nameLower "denim" then "denim"
  else if includes nameLower "leather" then "leather"
  else if includes nameLower "silk" then "silk"
  else "cotton".

(** [buildTags], a closure over [item]. An array, and each literal of
    [versatility] and [vibrancy], is truthy; the text [fit] is truthy when
    it is not empty. *)
Definition buildTags (item : ClosetItem.t) (name : string)
    (traits : option ClosetItem.Traits) : list string :=
  let tags := [] in
  let tags :=
    match traits with
    | Some tr => tags ++ ClosetItem.style tr
    | None => tags
    end in
  let tags :=
    match traits with
    | Some tr => if truthy (Some (ClosetItem.fit tr))
                 then tags ++ [ClosetItem.fit tr] else tags
    | None => tags
    end in
  let tags :=
    match traits with
    | Some tr => tags ++ ClosetItem.occasion tr
    | None => tags
    end in
  let tags :=
    match traits with
    | Some tr => tags ++ [ClosetItem.vibrancy_text (ClosetItem.vibrancy tr)]
    | None => tags
    end in
  let tags :=
    match traits with
    | Some tr =>
        tags ++ [("versatile-"
                  ++ ClosetItem.versatility_text (ClosetItem.versatility tr))%string]
    | None => tags
    end in
  let material := inferMaterial name in
  let tags := tags ++ [material] in
  tags ++ [ClosetItem.category_text (ClosetItem.category item)].

(** [closetItemToGarment], with the fields of the garment that the service
    reads; [userId] goes to a field it does not read. *)
Definition closetItemToGarment (item : ClosetItem.t) (userId : string)
  : Garment.t :=
  {| Garment.id := ClosetItem.id item;
     Garment.category := categoryMap (ClosetItem.category item);
     Garment.primaryColor := toLowerCase (ClosetItem.color item);
     Garment.material := Some (inferMaterial (ClosetItem.name item));
     Garment.season :=
       inferSeason (ClosetItem.name item) (ClosetItem.category item);
     Garment.tags :=
       buildTags item (ClosetItem.name item) (ClosetItem.traits item) |}.

Definition closetItemsToGarments (items : list ClosetItem.t) (userId : string)
  : list Garment.t :=
  map (fun item => closetItemToGarment item userId) items.

(* ================================================================= *)
(** ** The home page *)

(** [codeToWeatherLabel], on integer weather codes. *)
Definition codeToWeatherLabel (code : Z) : string :=
  if code =? 0 then "sunny"
  else if code =? 1 then "sunny"
  else if code =? 2 then "cloudy"
  else if code =? 3 then "cloudy"
  else if (code =? 45) || (code =? 48) then "foggy"
  else if existsb (Z.eqb code)
            [51; 53; 55; 56; 57; 61; 63; 65; 66; 67; 80; 81; 82]
       then "rainy"
  else if existsb (Z.eqb code) [71; 73; 75; 77; 85; 86] then "snowy"
  else if existsb (Z.eqb code) [95; 96; 99] then "rainy"
  else "cloudy".

Module Shown.

(** The objects the home page builds for display. *)
Record garment : Type := mkGarment {
  id : string;
  src : string;
  name : string;
  category : ClosetItem.Category;
  type : string;
  color : string;
  traits : option ClosetItem.Traits
}.

Record outfit : Type := mkOutfit {
  label : string;
  garments : list garment;
  explanation : string
}.

End Shown.

(** One step of [outfit.garmentIds.map((id) => ...)]: the first closet item
    of that id, as a displayed garment, or [null]. *)
Definition shownGarment (items : list ClosetItem.t) (id : string)
  : option Shown.garment :=
  match find (fun i => (ClosetItem.id i =? id)%string) items with
  | None => None
  | Some item =>
      Some {| Shown.id := ClosetItem.id item;
              Shown.src := ClosetItem.src item;
              Shown.name := ClosetItem.name item;
              Shown.category := ClosetItem.category item;
              Shown.type :=
                match ClosetItem.category item with
                | ClosetItem.outerwear => "outerwear"
                | ClosetItem.top => "top"
                | ClosetItem.bottom => "bottom"
                | _ => "shoes"
                end;
              Shown.color := ClosetItem.color item;
              Shown.traits := ClosetItem.traits item |}
  end.

(** [convertedOutfits] of the home page, over the closet [items] (the page
    passes its constant [CLOSET_ITEMS]); [.filter(Boolean)] drops the ids
    that no item bears. *)
Definition convertedOutfits (items : list ClosetItem.t)
    (outfits : list Outfit.t) : list Shown.outfit :=
  mapi
    (fun index outfit =>
       {| Shown.label := ("Option " ++ string_of_nat (index + 1))%string;
          Shown.garments :=
            flat_map opt_list
              (map (shownGarment items) (Outfit.garmentIds outfit));
          Shown.explanation := Outfit.explanation outfit |})
    outfits.

(* ================================================================= *)
(** ** The transport: [POST /api/recommendations] and the tRPC router *)

Module Body.
(** The fields the route handler reads from the request body; a field
    that is absent from the body is [None]. *)
Record t : Type := mk {
  userId : string;
  mood : option string;
  weather : option string;
  temperature : option Z;
  occasion : option string;
  limitCount : option Z;
  garments : option (list Garment.t)
}.
End Body.



(** [MOCK_GARMENTS] with the [userId] of each garment. *)
Definition MOCK_GARMENT_OWNERS : list (string * Garment.t) :=
  map (fun g => ("user1", g)) MOCK_GARMENTS.

Definition Seasons : list string :=
  ["spring"; "summer"; "fall"; "winter"; "all-season"].

(** The input schema of [recommendationRouter.generate]: the checks of the
    validator that a [Body.t] can fail. *)
Definition schema_accepts (input : Body.t) : bool :=
  match Body.mood input with Some m => mem m Moods | None => true end
  && match Body.weather input with
     | Some w => mem w WeatherConditions
     | None => true
     end
  && match Body.temperature input with
     | Some t => (-50 <=? t) && (t <=? 50)
     | None => true
     end
  && match Body.limitCount input with
     | Some n => (1 <=? n) && (n <=? 10)
     | None => true
     end
  && match Body.garments input with
     | Some gs => forallb (fun g => mem (Garment.season g) Seasons) gs
     | None => true
     end.

Inductive ProcedureResult : Type :=
| Data (result : Output.t)
| BadRequest
| InternalError.

(** [recommendationRouter.generate]: input rejected by the schema, or the
    query run on the parsed input ([limitCount] defaults to 5; without
    [garments] the mock garments of the user are used). An exception of the
    query is an internal error of the procedure. *)
Definition generate (clock : nat -> Z) (input : Body.t) : ProcedureResult :=
  if negb (schema_accepts input) then BadRequest
  else
    let garments :=
      match Body.garments input with
      | Some gs => gs
      | None =>
          map snd
            (filter (fun g => (fst g =? Body.userId input)%string)
               MOCK_GARMENT_OWNERS)
      end in
    let recommendationInput :=
      {| Input.userId := Body.userId input;
         Input.mood := Body.mood input;
         Input.weather := Body.weather input;
         Input.temperature := Body.temperature input;
         Input.occasion := Body.occasion input;
         Input.limitCount :=
           Some (match Body.limitCount input with
                 | Some n => n
                 | None => 5
                 end) |} in
    match generateOutfits clock garments recommendationInput with
    | Ok result => Data result
    | TypeError => InternalError
    end.

(** *** Sample data: four of the [CLOSET_ITEMS] of the home page *)

Definition oversized_wool_coat : ClosetItem.t :=
  ClosetItem.mk "1" "/garments/look-a-top.jpg" "Oversized wool coat"
    ClosetItem.outerwear "Black"
    (Some (ClosetItem.mkTraits ["bold"; "classic"; "minimalist"] "oversized"
             ["casual"; "smart-casual"; "night"]
             ClosetItem.high ClosetItem.muted)).

Definition cotton_oxford : ClosetItem.t :=
  ClosetItem.mk "3" "/garments/shirt-white.jpg" "Cotton oxford"
    ClosetItem.top "White"
    (Some (ClosetItem.mkTraits ["classic"; "minimalist"] "fitted"
             ["casual"; "work"; "smart-casual"]
             ClosetItem.high ClosetItem.muted)).

Definition tailored_trousers : ClosetItem.t :=
  ClosetItem.mk "7" "/garments/look-b-bottom.jpg" "Tailored trousers"
    ClosetItem.bottom "Black"
    (Some (ClosetItem.mkTraits ["minimalist"; "classic"] "tapered"
             ["formal"; "work"; "smart-casual"]
             ClosetItem.high ClosetItem.muted)).

Definition chelsea_boots : ClosetItem.t :=
  ClosetItem.mk "10" "/garments/look-a-shoes.jpg" "Chelsea boots"
    ClosetItem.shoes "Black"
    (Some (ClosetItem.mkTraits ["classic"; "bold"] "fitted"
             ["smart-casual"; "formal"; "night"]
             ClosetItem.high ClosetItem.muted)).

Definition SAMPLE_CLOSET : list ClosetItem.t :=
  [oversized_wool_coat; cotton_oxford; tailored_trousers; chelsea_boots].

(** *** [handleShuffle] of the home page *)

(** An array that may have holes: [None] is [undefined]. [arr[i]] reads
    [undefined] beyond the end, and [arr[i] = v] beyond the end extends the
    array, leaving holes. *)
Definition array_get {A} (arr : list (option A)) (i : nat) : option A :=
  nth i arr None.

Fixpoint array_set {A} (arr : list (option A)) (i : nat) (v : option A)
  : list (option A) :=
  match i, arr with
  | O, [] => [v]
  | O, _ :: r => v :: r
  | S i', [] => None :: array_set [] i' v
  | S i', x :: r => x :: array_set r i' v
  end.

(** [[arr[i], arr[j]] = [arr[j], arr[i]]]: both elements are read first,
    then [arr[i]] and [arr[j]] are written in this order. *)
Definition array_swap {A} (arr : list (option A)) (i j : nat)
  : list (option A) :=
  let x := array_get arr j in
  let y := array_get arr i in
  array_set (array_set arr i x) j y.

(** The loop [for (let i = n - 1; i > 0; i--)] of the shuffle. The
    expression [Math.floor(Math.random() * (i + 1))] is [pick call (i + 1)],
    where [call] counts the calls of [Math.random] so far. *)
Fixpoint fisher_yates {A} (pick : nat -> nat -> nat) (call i : nat)
    (arr : list (option A)) : list (option A) :=
  match i with
  | O => arr
  | S i' =>
      let j := pick call (i + 1)%nat in
      fisher_yates pick (S call) i' (array_swap arr i j)
  end.

(** The function given to [setRecommendedOutfit] in [handleShuffle], from
    the full pool to the outfits displayed next. *)
Definition handleShuffle {A} (pick : nat -> nat -> nat)
    (allRecommendedOutfits : list A) : list (option A) :=
  if (List.length allRecommendedOutfits =? 0)%nat
  then map Some allRecommendedOutfits
  else if (List.length allRecommendedOutfits <=? 6)%nat
  then
    let shuffled := map Some allRecommendedOutfits in
    fisher_yates pick 0 (List.length shuffled - 1) shuffled
  else
    let indices :=
      map Some (seq 0 (List.length allRecommendedOutfits)) in
    let indices :=
      fisher_yates pick 0 (List.length indices - 1) indices in
    let selected :=
      map (fun idx =>
             match idx with
             | Some k => nth_error allRecommendedOutfits k
             | None => None
             end)
        (slice0 indices 6) in
    selected.

(* ================================================================= *)
(** ** Strings *)

Section Strings.

Lemma prefix_iff_app (p s : string) :
  String.prefix p s = true <-> exists post, s = (p ++ post)%string.
Proof.
  revert s; induction p as [|a p IH]; intros s; simpl.
  - split; [intros _; now exists s | now destruct s].
  - destruct s as [|b s]; simpl.
    + split; [discriminate | intros [post H]; discriminate].
    + destruct (ascii_dec a b) as [->|Hab].
      * rewrite IH. split; intros [post H]; exists post.
        -- now rewrite H.
        -- now inversion H.
      * split; [discriminate|].
        intros [post H]. inversion H. congruence.
Qed.

Lemma includes_iff_app (s sub : string) :
  includes s sub = true
  <-> exists pre post, s = (pre ++ sub ++ post)%string.
Proof.
  induction s as [|c s IH]; cbn [includes].
  - rewrite orb_false_r, prefix_iff_app. split.
    + intros [post H]. now exists ""%string, post.
    + intros [pre [post H]]. destruct pre; [now exists post | discriminate].
  - rewrite orb_true_iff, prefix_iff_app, IH. split.
    + intros [[post H] | [pre [post H]]].
      * now exists ""%string, post.
      * exists (String c pre), post. simpl. now rewrite H.
    + intros [pre [post H]]. destruct pre as [|d pre]; simpl in H.
      * left. now exists post.
      * right. inversion H. now exists pre, post.
Qed.

Lemma toLowerCase_app (a b : string) :
  toLowerCase (a ++ b) = (toLowerCase a ++ toLowerCase b)%string.
Proof. induction a as [|c a IH]; simpl; [reflexivity | now rewrite IH]. Qed.

Lemma toLowerCase_split (s a b : string) :
  toLowerCase s = (a ++ b)%string ->
  exists s1 s2, s = (s1 ++ s2)%string
                /\ toLowerCase s1 = a /\ toLowerCase s2 = b.
Proof.
  revert s; induction a as [|c a IH]; intros s H; simpl in H.
  - now exists ""%string, s.
  - destruct s as [|d s]; simpl in H; [discriminate|].
    inversion H as [[Hc Hs]]. destruct (IH _ Hs) as [s1 [s2 [-> [H1 H2]]]].
    exists (String d s1), s2. simpl. now rewrite H1.
Qed.

(** Searching the lowered text for a lower-case keyword is a
    case-insensitive search of the text. *)
Lemma includes_lower_iff (text kw : string) :
  includes (toLowerCase text) kw = true <-> contains_ci text kw.
Proof.
  rewrite includes_iff_app. unfold contains_ci. split.
  - intros [pre [post H]].
    apply toLowerCase_split in H as [s1 [s2 [-> [H1 H2]]]].
    apply toLowerCase_split in H2 as [w [s3 [-> [Hw H3]]]].
    now exists s1, w, s3.
  - intros [pre [w [post [-> Hw]]]].
    exists (toLowerCase pre), (toLowerCase post).
    now rewrite !toLowerCase_app, Hw.
Qed.

Lemma mem_iff_In (x : string) (l : list string) : mem x l = true <-> In x l.
Proof.
  unfold mem. rewrite existsb_exists. split.
  - intros [y [Hy He]]. apply String.eqb_eq in He. now subst.
  - intros H. exists x. split; [assumption | apply String.eqb_refl].
Qed.

End Strings.

Lemma category_eqb_eq (a b : GarmentCategory) : category_eqb a b = true <-> a = b.
Proof. destruct a, b; simpl; split; intros H; try reflexivity; discriminate. Qed.

Lemma material_lower_text (g : Garment.t) :
  material_lower g = toLowerCase (material_text g).
Proof. unfold material_lower, material_text. now destruct (Garment.material g). Qed.

(** C4. The temperature check of the context filter: above 25 degrees a
    garment is excluded exactly when it is outerwear or its material contains
    "wool" or "fleece" (whatever the case of the letters); below 10 degrees it
    is kept exactly when it is outerwear or its material contains one of
    "wool", "fleece", "down", "synthetic"; from 10 to 25 degrees every garment
    is kept. *)
Theorem temperature_check (g : Garment.t) (t : Z) :
  (25 < t ->
   (isTemperatureAppropriate g t = false
    <-> Garment.category g = outerwear
        \/ contains_ci (material_text g) "wool"
        \/ contains_ci (material_text g) "fleece"))
  /\ (t < 10 ->
      (isTemperatureAppropriate g t = true
       <-> Garment.category g = outerwear
           \/ exists kw, In kw ["wool"; "fleece"; "down"; "synthetic"]
                         /\ contains_ci (material_text g) kw))
  /\ (10 <= t <= 25 -> isTemperatureAppropriate g t = true).
Proof.
  unfold isTemperatureAppropriate. rewrite material_lower_text.
  repeat split.
  - intros Hinc. destruct (t >? 25) eqn:Hhot; [|lia].
    destruct (category_eqb _ _ || _ || _) eqn:Hex; [|discriminate].
    rewrite !orb_true_iff, category_eqb_eq, !includes_lower_iff in Hex. tauto.
  - intros Hex. destruct (t >? 25) eqn:Hhot; [|lia].
    rewrite <- category_eqb_eq, <- !includes_lower_iff, <- !orb_true_iff,
      orb_assoc in Hex.
    now rewrite Hex.
  - intros Hinc. destruct (t >? 25) eqn:Hhot; [lia|].
    destruct (t <? 10) eqn:Hcold; [|lia].
    rewrite orb_true_iff, category_eqb_eq, existsb_exists in Hinc.
    destruct Hinc as [[kw [Hin Hkw]] | Hc]; [right | now left].
    exists kw. now rewrite <- includes_lower_iff.
  - intros Hex. destruct (t >? 25) eqn:Hhot; [lia|].
    destruct (t <? 10) eqn:Hcold; [|lia].
    rewrite orb_true_iff, category_eqb_eq, existsb_exists.
    destruct Hex as [Hc | [kw [Hin Hkw]]]; [now right | left].
    exists kw. now rewrite includes_lower_iff.
  - destruct (t >? 25) eqn:Hhot; [lia|].
    destruct (t <? 10) eqn:Hcold; [lia | reflexivity].
Qed.

Lemma temperature_check_witness :
  isTemperatureAppropriate wool_sweater 30 = false
  /\ isTemperatureAppropriate wool_sweater 5 = true
  /\ isTemperatureAppropriate wool_sweater 18 = true.
Proof.
  destruct (temperature_check wool_sweater 30) as [Hhot _].
  destruct (temperature_check wool_sweater 5) as [_ [Hcold _]].
  destruct (temperature_check wool_sweater 18) as [_ [_ Hmild]].
  split; [|split].
  - apply Hhot; [lia|]. right. left. now exists "", "wool", "".
  - apply Hcold; [lia|]. right. exists "wool". split; [now left|].
    now exists "", "wool", "".
  - apply Hmild. lia.
Defined.

(* ================================================================= *)
(** ** Computations that may throw *)

Lemma bind_Ok {A B} (r : result A) (k : A -> result B) (b : B) :
  bind r k = Ok b <-> exists a, r = Ok a /\ k a = Ok b.
Proof.
  destruct r as [a|]; simpl; split.
  - intros H. now exists a.
  - now intros [a' [[= ->] H]].
  - discriminate.
  - now intros [a' [[=] _]].
Qed.

Lemma Ok_inj {A} (a b : A) : Ok a = Ok b -> a = b.
Proof. congruence. Qed.

Section Results.

Context {A B : Type}.

(** A predicate that never throws makes [filterM] the plain [filter]. *)
Lemma filterM_pure (p : A -> result bool) (q : A -> bool) (l : list A) :
  (forall x, In x l -> p x = Ok (q x)) -> filterM p l = Ok (filter q l).
Proof.
  induction l as [|x l IH]; intros Hp; simpl; [reflexivity|].
  rewrite (Hp x (or_introl eq_refl)). simpl.
  rewrite IH by (intros y Hy; apply Hp; now right). reflexivity.
Qed.

Lemma filterM_incl (p : A -> result bool) (l r : list A) :
  filterM p l = Ok r -> incl r l.
Proof.
  revert r; induction l as [|x l IH]; intros r; simpl.
  - intros [= <-]. apply incl_refl.
  - intros H. apply bind_Ok in H as [keep [_ H]].
    destruct (filterM p l) as [r'|]; simpl in H; [|discriminate].
    injection H as <-. specialize (IH r' eq_refl).
    destruct keep.
    + intros y [<-|Hy]; [now left | right; now apply IH].
    + intros y Hy. right. now apply IH.
Qed.

Lemma mapM_Forall2 (f : A -> result B) (l : list A) (r : list B) :
  mapM f l = Ok r <-> Forall2 (fun x y => f x = Ok y) l r.
Proof.
  revert r; induction l as [|x l IH]; intros r; simpl.
  - split; [intros [= <-]; constructor | now inversion 1].
  - split.
    + intros H. apply bind_Ok in H as [y [Hy H]].
      destruct (mapM f l) as [r'|] eqn:Hr; simpl in H; [|discriminate].
      injection H as <-. constructor; [assumption | now apply IH].
    + intros H. inversion H as [|? y ? r' Hy Hr]; subst.
      rewrite Hy. simpl. apply IH in Hr. now rewrite Hr.
Qed.

Lemma mapM_total (f : A -> result B) (l : list A) :
  (forall x, In x l -> exists y, f x = Ok y) -> exists r, mapM f l = Ok r.
Proof.
  induction l as [|x l IH]; intros Hf; simpl; [now exists []|].
  destruct (Hf x (or_introl eq_refl)) as [y ->].
  destruct IH as [r ->]; [intros z Hz; apply Hf; now right|].
  now exists (y :: r).
Qed.

Lemma flat_mapM_concat (f : A -> result (list B)) (l : list A) (r : list B) :
  flat_mapM f l = Ok r
  <-> exists rs, Forall2 (fun x ys => f x = Ok ys) l rs /\ r = List.concat rs.
Proof.
  revert r; induction l as [|x l IH]; intros r; simpl.
  - split.
    + intros [= <-]. exists []. split; constructor.
    + intros [rs [H ->]]. now inversion H.
  - split.
    + intros H. apply bind_Ok in H as [ys [Hy H]].
      destruct (flat_mapM f l) as [r'|] eqn:Hr; simpl in H; [|discriminate].
      injection H as <-. destruct (proj1 (IH r') eq_refl) as [rs [Hrs ->]].
      exists (ys :: rs). split; [now constructor | reflexivity].
    + intros [rs [H ->]]. inversion H as [|? ys ? rs' Hy Hrs]; subst.
      rewrite Hy. simpl.
      rewrite (proj2 (IH (List.concat rs'))) by now exists rs'. reflexivity.
Qed.

Lemma flat_mapM_total (f : A -> result (list B)) (l : list A) :
  (forall x, In x l -> exists ys, f x = Ok ys) ->
  exists r, flat_mapM f l = Ok r.
Proof.
  induction l as [|x l IH]; intros Hf; simpl; [now exists []|].
  destruct (Hf x (or_introl eq_refl)) as [ys ->].
  destruct IH as [r ->]; [intros z Hz; apply Hf; now right|].
  now exists (ys ++ r).
Qed.

End Results.

Section Loops.

Context {A S : Type} (body : S -> A -> result S).

(** A loop whose body keeps [P] ends in a state satisfying [P]. *)
Lemma foldM_invariant (P : S -> Prop) (l : list A) :
  (forall s x s', P s -> body s x = Ok s' -> P s') ->
  forall s s', P s -> foldM body l s = Ok s' -> P s'.
Proof.
  intros Hbody. induction l as [|x l IH]; intros s s' Hs; simpl.
  - now intros [= <-].
  - intros H. apply bind_Ok in H as [s1 [H1 H]]. eauto.
Qed.

Lemma foldM_total (l : list A) :
  (forall s x, exists s', body s x = Ok s') ->
  forall s, exists s', foldM body l s = Ok s'.
Proof.
  intros Hbody. induction l as [|x l IH]; intros s; simpl.
  - now exists s.
  - destruct (Hbody s x) as [s1 ->]. simpl. apply IH.
Qed.


End Loops.

(** *** Record lookups *)

(** A key that names no inherited member of [Object.prototype]. *)
Lemma get_plain {A} (rec : list (string * A)) (k : string) (d : A) :
  mem k ObjectPrototypeKeys = false ->
  or_else (get rec k) d
  = Own (match assoc k rec with Some a => a | None => d end).
Proof.
  intros Hk. unfold get. destruct (assoc k rec); [reflexivity|].
  now rewrite Hk.
Qed.

Lemma assoc_None {A} (rec : list (string * A)) (k : string) :
  mem k (map fst rec) = false -> assoc k rec = None.
Proof.
  induction rec as [|[k' a] rec IH]; simpl; [reflexivity|].
  intros H. apply orb_false_iff in H as [-> H]. auto.
Qed.


(* ================================================================= *)
(** ** The scorer *)

Section Scoring.

Lemma fold_left_nonneg {A} (f : Z -> A -> Z) (l : list A) :
  (forall s x, 0 <= s -> 0 <= f s x) ->
  forall s, 0 <= s -> 0 <= fold_left f l s.
Proof.
  intros Hf. induction l as [|x l IH]; intros s Hs; simpl; auto.
Qed.

Lemma scoreColorHarmony_range (gs : list Garment.t) :
  0 <= scoreColorHarmony gs <= 20.
Proof.
  unfold scoreColorHarmony.
  destruct (List.length gs <? 2)%nat; [lia|].
  set (colors := map _ gs).
  assert (0 <= fold_left
                 (fun harmonyScore pair =>
                    if mem (fst pair) colors && mem (snd pair) colors
                    then harmonyScore + 15 else harmonyScore)
                 complementaryPairs 0) as H.
  { apply fold_left_nonneg; [|lia].
    intros s x Hs. destruct (_ && _); lia. }
  destruct (forallb _ colors); destruct (_ >=? _); lia.
Qed.

Lemma scoreStyleCoherence_range (gs : list Garment.t) :
  0 <= scoreStyleCoherence gs <= 15.
Proof.
  unfold scoreStyleCoherence.
  destruct (List.length gs <? 2)%nat; [lia|].
  destruct (List.length _ =? 0)%nat; [lia|].
  destruct (0 <? List.length _)%nat; [lia|].
  destruct (_ || _); lia.
Qed.

Lemma scoreVersatility_range (gs : list Garment.t) :
  0 <= scoreVersatility gs <= 8.
Proof.
  unfold scoreVersatility.
  assert (0 <= fold_left
                 (fun versatilityScore garment =>
                    if mem "versatile-high" (Garment.tags garment)
                    then versatilityScore + 2
                    else if mem "versatile-medium" (Garment.tags garment)
                         then versatilityScore + 1
                         else versatilityScore)
                 gs 0) as H.
  { apply fold_left_nonneg; [|lia].
    intros s x Hs. destruct (mem _ _); [lia|]. destruct (mem _ _); lia. }
  lia.
Qed.

Lemma scoreDiversity_range (gs : list Garment.t) :
  5 <= scoreDiversity gs <= 10.
Proof. unfold scoreDiversity. destruct (3 <=? _)%nat; lia. Qed.

(** Whenever the mood-alignment loop completes, its capped sum lies in
    0..20. *)
Lemma scoreMoodAlignment_range (gs : list Garment.t) (mood : string) (s : Z) :
  scoreMoodAlignment gs mood = Ok s -> 0 <= s <= 20.
Proof.
  unfold scoreMoodAlignment. intros H.
  apply bind_Ok in H as [raw [Hraw [= <-]]].
  enough (0 <= raw) by lia.
  revert Hraw. apply foldM_invariant with (P := fun s => 0 <= s); [|lia].
  intros s0 g s1 Hs0 Hbody.
  apply bind_Ok in Hbody as [matched [_ [= <-]]]. lia.
Qed.

Lemma scoreOccasionMatching_range (gs : list Garment.t) (mood : string) (s : Z) :
  scoreOccasionMatching gs mood = Ok s -> 0 <= s <= 12.
Proof.
  unfold scoreOccasionMatching.
  destruct (length_is_zero _); [intros [= <-]; lia|].
  intros H. apply bind_Ok in H as [raw [Hraw [= <-]]].
  enough (0 <= raw) by lia.
  revert Hraw. apply foldM_invariant with (P := fun s => 0 <= s); [|lia].
  intros s0 g s1 Hs0 Hbody.
  apply bind_Ok in Hbody as [matched [_ [= <-]]]. lia.
Qed.

(** A mood that names no inherited member never makes the scorer throw. *)
Lemma scoreMoodAlignment_total (gs : list Garment.t) (mood : string) :
  mem mood ObjectPrototypeKeys = false ->
  exists s, scoreMoodAlignment gs mood = Ok s.
Proof.
  intros Hm. unfold scoreMoodAlignment. rewrite (get_plain _ _ _ Hm).
  set (targets := match assoc mood moodTags with Some a => a | None => [] end).
  match goal with
  | |- context [foldM ?b gs 0] => destruct (foldM_total b gs) with (s := 0)
      as [raw Hraw]
  end.
  - intros s g.
    rewrite filterM_pure
      with (q := fun t => existsb (fun target => includes t target) targets)
      by reflexivity.
    simpl. eauto.
  - rewrite Hraw. simpl. eauto.
Qed.

Lemma scoreOccasionMatching_total (gs : list Garment.t) (mood : string) :
  mem mood ObjectPrototypeKeys = false ->
  exists s, scoreOccasionMatching gs mood = Ok s.
Proof.
  intros Hm. unfold scoreOccasionMatching. rewrite (get_plain _ _ _ Hm).
  set (targets := match assoc mood moodToOccasion with
                  | Some a => a | None => [] end).
  destruct (length_is_zero _); [eauto|].
  match goal with
  | |- context [foldM ?b gs 0] => destruct (foldM_total b gs) with (s := 0)
      as [raw Hraw]
  end.
  - intros s g.
    rewrite filterM_pure with (q := fun occ => mem occ targets)
      by reflexivity.
    simpl. eauto.
  - rewrite Hraw. simpl. eauto.
Qed.

Lemma scoreOutfit_range (gs : list Garment.t) (mood : string)
    (all : list Garment.t) (s : Z) :
  scoreOutfit gs mood all = Ok s -> 55 <= s <= 100.
Proof.
  unfold scoreOutfit. intros H.
  apply bind_Ok in H as [moodScore [Hmood H]].
  apply bind_Ok in H as [occasionScore [Hocc H]].
  apply Ok_inj in H. subst s.
  apply scoreMoodAlignment_range in Hmood.
  apply scoreOccasionMatching_range in Hocc.
  pose proof (scoreColorHarmony_range gs).
  pose proof (scoreStyleCoherence_range gs).
  pose proof (scoreVersatility_range gs).
  pose proof (scoreDiversity_range gs).
  cbv zeta. lia.
Qed.

Lemma scoreOutfit_total (gs : list Garment.t) (mood : string)
    (all : list Garment.t) :
  mem mood ObjectPrototypeKeys = false ->
  exists s, scoreOutfit gs mood all = Ok s.
Proof.
  intros Hm. unfold scoreOutfit.
  destruct (scoreMoodAlignment_total gs mood Hm) as [ms ->].
  destruct (scoreOccasionMatching_total gs mood Hm) as [os ->].
  simpl. eauto.
Qed.

End Scoring.

(** C2. Every score computed by [scoreOutfit], for any list of garments and
    any mood, is an integer between 50 and 100; and a score is computed for
    every mood that names no inherited member of [Object.prototype], that
    is for each of the seven documented moods and for any other ordinary
    text. *)
Theorem scoreOutfit_bounds (gs : list Garment.t) (mood : string)
    (all : list Garment.t) :
  (forall s, scoreOutfit gs mood all = Ok s -> 50 <= s <= 100)
  /\ (mem mood ObjectPrototypeKeys = false ->
      exists s, scoreOutfit gs mood all = Ok s /\ 50 <= s <= 100).
Proof.
  assert (forall s, scoreOutfit gs mood all = Ok s -> 50 <= s <= 100) as Hrange.
  { intros s Hs. apply scoreOutfit_range in Hs. lia. }
  split; [exact Hrange|].
  intros Hm. destruct (scoreOutfit_total gs mood all Hm) as [s Hs].
  exists s. split; [assumption | now apply Hrange].
Qed.

Lemma scoreOutfit_bounds_witness :
  exists s,
    scoreOutfit [wool_sweater; khaki_chinos] "cozy" MOCK_GARMENTS = Ok s
    /\ 50 <= s <= 100.
Proof.
  apply (proj2 (scoreOutfit_bounds [wool_sweater; khaki_chinos] "cozy"
                  MOCK_GARMENTS)).
  reflexivity.
Defined.

(* ================================================================= *)
(** ** Grouping and candidate generation *)

Section Grouping.

Lemma category_eqb_refl (c : GarmentCategory) : category_eqb c c = true.
Proof. now destruct c. Qed.

Lemma category_eqb_sym (a b : GarmentCategory) :
  category_eqb a b = category_eqb b a.
Proof. now destruct a, b. Qed.

Lemma map_get_set (m : CategoryMap) (k k' : GarmentCategory)
    (v : list Garment.t) :
  map_get (map_set m k v) k'
  = if category_eqb k' k then Some v else map_get m k'.
Proof.
  induction m as [|[k0 v0] m IH]; simpl.
  - reflexivity.
  - destruct (category_eqb k k0) eqn:Hk; simpl.
    + apply category_eqb_eq in Hk as <-.
      now destruct (category_eqb k' k).
    + destruct (category_eqb k' k0) eqn:Hk'.
      * apply category_eqb_eq in Hk' as ->.
        now rewrite (category_eqb_sym k0 k), Hk.
      * apply IH.
Qed.

Lemma get_or_nil_set (m : CategoryMap) (k k' : GarmentCategory)
    (v : list Garment.t) :
  get_or_nil (map_set m k v) k'
  = if category_eqb k' k then v else get_or_nil m k'.
Proof.
  unfold get_or_nil. rewrite map_get_set. now destruct (category_eqb k' k).
Qed.

(** One round of the grouping loop appends the garment to its group. *)
Lemma group_step (m : CategoryMap) (g : Garment.t) (c : GarmentCategory) :
  let k := Garment.category g in
  let m1 := if negb (map_has m k) then map_set m k [] else m in
  get_or_nil (map_set m1 k (get_or_nil m1 k ++ [g])) c
  = get_or_nil m c ++ (if category_eqb c k then [g] else []).
Proof.
  intros k m1. rewrite get_or_nil_set.
  assert (forall c', get_or_nil m1 c' = get_or_nil m c') as Hm1.
  { intros c'. subst m1. unfold map_has.
    destruct (map_get m k) eqn:Hk; simpl; [reflexivity|].
    rewrite get_or_nil_set. destruct (category_eqb c' k) eqn:Hc; [|reflexivity].
    apply category_eqb_eq in Hc as ->. unfold get_or_nil. now rewrite Hk. }
  destruct (category_eqb c k) eqn:Hc.
  - apply category_eqb_eq in Hc as ->. now rewrite Hm1.
  - now rewrite Hm1, app_nil_r.
Qed.

Lemma groupByCategory_from (gs : list Garment.t) (m : CategoryMap)
    (c : GarmentCategory) :
  get_or_nil
    (fold_left
       (fun grouped garment =>
          let k := Garment.category garment in
          let grouped := if negb (map_has grouped k)
                         then map_set grouped k [] else grouped in
          map_set grouped k (get_or_nil grouped k ++ [garment]))
       gs m) c
  = get_or_nil m c ++ of_category c gs.
Proof.
  revert m; induction gs as [|g gs IH]; intros m; simpl.
  - now rewrite app_nil_r.
  - rewrite IH. rewrite (group_step m g c). rewrite <- app_assoc.
    now destruct (category_eqb c (Garment.category g)).
Qed.

(** [categories.get(c) || []] is the wardrobe filtered by category. *)
Lemma groupByCategory_get (gs : list Garment.t) (c : GarmentCategory) :
  get_or_nil (groupByCategory gs) c = of_category c gs.
Proof. unfold groupByCategory. now rewrite groupByCategory_from. Qed.

Lemma of_category_In (c : GarmentCategory) (gs : list Garment.t)
    (g : Garment.t) :
  In g (of_category c gs) <-> In g gs /\ Garment.category g = c.
Proof.
  unfold of_category. rewrite filter_In, category_eqb_eq.
  intuition congruence.
Qed.

End Grouping.

Section Traversals.

Context {A B C : Type}.




End Traversals.

Section Generator.

Variables (gs : list Garment.t) (mood : string).


(** With a mood that names no inherited member, generation completes. *)
Lemma generateCandidates_total :
  mem mood ObjectPrototypeKeys = false ->
  exists cs, generateCandidates gs mood = Ok cs.
Proof.
  intros Hm. unfold generateCandidates.
  destruct (_ || _); [eauto|].
  apply flat_mapM_total. intros top _.
  apply flat_mapM_total. intros bottom _.
  match goal with
  | |- context [mapM ?f ?l] =>
      destruct (mapM_total f l) as [withShoes ->]
  end.
  { intros shoe _.
    match goal with
    | |- context [scoreOutfit ?p mood gs] =>
        destruct (scoreOutfit_total p mood gs Hm) as [sc ->]
    end.
    simpl. eauto. }
  simpl.
  match goal with
  | |- context [mapM ?f ?l] =>
      destruct (mapM_total f l) as [withAccessory ->]
  end.
  { intros accessory _.
    match goal with
    | |- context [scoreOutfit ?p mood gs] =>
        destruct (scoreOutfit_total p mood gs Hm) as [sc ->]
    end.
    simpl. eauto. }
  simpl. eauto.
Qed.




End Generator.



Section Membership.

Context {A B : Type}.

Lemma mapM_In (f : A -> result B) (l : list A) (r : list B) (y : B) :
  mapM f l = Ok r -> In y r -> exists x, In x l /\ f x = Ok y.
Proof.
  intros H. apply mapM_Forall2 in H.
  induction H as [|x y' l r Hxy _ IH]; simpl; [contradiction|].
  intros [<-|Hy].
  - exists x. now split; [left|].
  - destruct (IH Hy) as [x' [Hx' Hf]]. exists x'. now split; [right|].
Qed.

Lemma flat_mapM_In (f : A -> result (list B)) (l : list A) (r : list B)
    (y : B) :
  flat_mapM f l = Ok r -> In y r ->
  exists x ys, In x l /\ f x = Ok ys /\ In y ys.
Proof.
  intros H. apply flat_mapM_concat in H as [rs [H ->]].
  induction H as [|x ys l rs Hxy _ IH]; simpl; [contradiction|].
  rewrite in_app_iff. intros [Hy|Hy].
  - exists x, ys. now split; [left|].
  - destruct (IH Hy) as [x' [ys' [Hx' Hf]]]. exists x', ys'.
    now split; [right|].
Qed.

Lemma firstn_incl (n : nat) (l : list A) : incl (firstn n l) l.
Proof.
  intros x Hx. rewrite <- (firstn_skipn n l). apply in_or_app. now left.
Qed.

End Membership.

(** Every candidate is the scored and explained list of pieces of a
    well-composed outfit, and lists the ids of exactly these pieces. *)
Lemma generateCandidates_In (gs : list Garment.t) (mood : string)
    (cs : list Candidate.t) (c : Candidate.t) :
  generateCandidates gs mood = Ok cs -> In c cs ->
  exists pieces,
    composed_of gs pieces
    /\ Candidate.garmentIds c = map Garment.id pieces
    /\ scoreOutfit pieces mood gs = Ok (Candidate.score c)
    /\ Candidate.reasons c = generateReasons pieces mood.
Proof.
  unfold generateCandidates. rewrite !groupByCategory_get.
  set (S := of_category shoes gs). set (A := of_category accessories gs).
  destruct (_ || _); [intros [= <-] []|].
  intros Hgen Hc.
  destruct (flat_mapM_In _ _ _ _ Hgen Hc) as [top [byTop [Htop [HbyTop Hc1]]]].
  destruct (flat_mapM_In _ _ _ _ HbyTop Hc1)
    as [bottom [ys [Hbottom [Hys Hc2]]]].
  apply of_category_In in Htop, Hbottom.
  apply bind_Ok in Hys as [withShoes [Hshoes Hys]].
  apply bind_Ok in Hys as [withAccessory [Hacc Hys]].
  apply Ok_inj in Hys. subst ys. apply in_app_or in Hc2 as [Hin|Hin].
  - destruct (mapM_In _ _ _ _ Hshoes Hin) as [shoe [Hshoe Hmk]].
    apply bind_Ok in Hmk as [sc [Hsc Hmk]]. apply Ok_inj in Hmk. subst c.
    simpl. destruct (Garment.id shoe =? "barefoot")%string eqn:Hbare.
    + exists [top; bottom]. split; [|now repeat split].
      exists top, bottom, None, None.
      split; [assumption|]. split; [assumption|].
      split; [discriminate|]. split; [discriminate | reflexivity].
    + exists [top; bottom; shoe]. split; [|now repeat split].
      exists top, bottom, (Some shoe), None.
      split; [assumption|]. split; [assumption|].
      split; [|split; [discriminate | reflexivity]].
      intros s' [= <-]. destruct S as [|s0 S'] eqn:HS.
      * destruct Hshoe as [<-|[]]. discriminate.
      * change (0 <? List.length (s0 :: S'))%nat with true in Hshoe.
        cbv iota in Hshoe. rewrite <- HS in Hshoe.
        now apply of_category_In in Hshoe.
  - destruct (mapM_In _ _ _ _ Hacc Hin) as [accessory [Haccessory Hmk]].
    apply bind_Ok in Hmk as [sc [Hsc Hmk]]. apply Ok_inj in Hmk. subst c.
    apply firstn_incl, of_category_In in Haccessory.
    exists ([top; bottom] ++ firstn 1 S ++ [accessory]).
    split; [|split; [|now split]].
    + exists top, bottom, (hd_error S), (Some accessory).
      split; [assumption|]. split; [assumption|].
      split; [|split].
      * intros s' Hs. destruct S as [|s0 S'] eqn:HS; [discriminate|].
        injection Hs as <-.
        assert (In s0 (of_category shoes gs)) as H0
            by (fold S; rewrite HS; now left).
        now apply of_category_In in H0.
      * now intros a [= <-].
      * now destruct S.
    + simpl. now destruct S.
Qed.


(* ================================================================= *)
(** ** Ranking *)

Section Sorting.

Lemma insert_desc_perm (c : Candidate.t) (l : list Candidate.t) :
  Permutation (insert_desc c l) (c :: l).
Proof.
  induction l as [|d r IH]; simpl; [reflexivity|].
  destruct (_ >? 0); [|reflexivity].
  rewrite IH. apply perm_swap.
Qed.

Lemma sort_desc_perm (l : list Candidate.t) : Permutation (sort_desc l) l.
Proof.
  induction l as [|c l IH]; simpl; [reflexivity|].
  rewrite insert_desc_perm. now constructor.
Qed.





End Sorting.

Section Selection.

Context {A : Type} (R : A -> A -> Prop).



Lemma StronglySorted_map {B} (Q : B -> B -> Prop) (f : A -> B) (l : list A) :
  (forall a b, R a b -> Q (f a) (f b)) ->
  StronglySorted R l -> StronglySorted Q (map f l).
Proof.
  intros Hf. induction 1 as [|x l Hl IH Hx]; simpl; constructor.
  - assumption.
  - apply Forall_map. eapply Forall_impl; [|exact Hx]. auto.
Qed.

Lemma slice0_firstn (l : list A) (e : Z) :
  exists n, slice0 l e = firstn n l.
Proof. unfold slice0. destruct (e <? 0); eauto. Qed.

Lemma slice0_nonneg (l : list A) (e : Z) :
  0 <= e -> slice0 l e = firstn (Z.to_nat e) l.
Proof. unfold slice0. intros He. destruct (e <? 0) eqn:H; [lia | reflexivity]. Qed.

Lemma mapi_from_length {B} (f : nat -> A -> B) (l : list A) (i : nat) :
  List.length (mapi_from i f l) = List.length l.
Proof. revert i; induction l; intros i; simpl; auto. Qed.

(** Forgetting what depends on the index turns [mapi] into [map]. *)
Lemma map_mapi_from {B C} (f : nat -> A -> B) (g : B -> C) (h : A -> C)
    (l : list A) (i : nat) :
  (forall j x, g (f j x) = h x) -> map g (mapi_from i f l) = map h l.
Proof.
  intros Hg. revert i; induction l as [|x l IH]; intros i; simpl;
    [reflexivity|].
  now rewrite Hg, IH.
Qed.

Lemma mapi_from_In {B} (f : nat -> A -> B) (l : list A) (i : nat) (y : B) :
  In y (mapi_from i f l) -> exists j x, In x l /\ y = f j x.
Proof.
  revert i; induction l as [|x l IH]; intros i; simpl; [contradiction|].
  intros [<-|Hy].
  - exists i, x. now split; [left|].
  - destruct (IH _ Hy) as [j [x' [Hx' ->]]]. exists j, x'.
    now split; [right|].
Qed.

End Selection.

Section Rank.

Variables (cs : list Candidate.t) (input : Input.t).

Lemma rank_In (c : Candidate.t) :
  In c (rank cs input) ->
  In c cs /\ MIN_SCORE_THRESHOLD <= Candidate.score c.
Proof.
  unfold rank. destruct (slice0_firstn (filter
    (fun candidate => Candidate.score candidate >=? MIN_SCORE_THRESHOLD)
    (sort_desc cs)) (limit_or_6 input)) as [n ->].
  intros H. apply firstn_incl, filter_In in H as [H Hs]. split.
  - eapply Permutation_in; [apply sort_desc_perm | exact H].
  - lia.
Qed.


End Rank.

(* ================================================================= *)
(** ** The request as a whole *)

Lemma length_eqb_0 {A} (l : list A) :
  (List.length l =? 0)%nat = true <-> l = [].
Proof. rewrite Nat.eqb_eq. apply length_zero_iff_nil. Qed.

Lemma length_eqb_0_false {A} (l : list A) :
  (List.length l =? 0)%nat = false <-> l <> [].
Proof.
  rewrite <- length_eqb_0. destruct (List.length l =? 0)%nat; split;
    congruence.
Qed.

(** [generateOutfits] returns exactly in one of the four terminal states. *)
Lemma generateOutfits_outcome (clock : nat -> Z) (gs : list Garment.t)
    (input : Input.t) (out : Output.t) :
  generateOutfits clock gs input = Ok out <-> outcome clock gs input out.
Proof.
  unfold generateOutfits. split.
  - destruct (List.length gs =? 0)%nat eqn:Hgs.
    { intros H. apply Ok_inj in H. subst out.
      apply EmptyWardrobe. now apply length_eqb_0. }
    apply length_eqb_0_false in Hgs.
    intros H. apply bind_Ok in H as [fs [Hfs H]].
    destruct (List.length fs =? 0)%nat eqn:Hfs0.
    { apply Ok_inj in H. subst out. apply length_eqb_0 in Hfs0. subst fs.
      now apply NoEligibleGarments. }
    apply length_eqb_0_false in Hfs0.
    apply bind_Ok in H as [cs [Hcs H]]. cbv zeta in H.
    destruct (List.length (rank cs input) =? 0)%nat eqn:Hr.
    { apply Ok_inj in H. subst out. apply length_eqb_0 in Hr.
      now apply (NoQualifyingOutfits _ _ _ fs cs). }
    apply length_eqb_0_false in Hr.
    apply Ok_inj in H. subst out. now apply (Recommended _ _ _ fs cs).
  - intros [Hgs | Hgs Hfs | fs cs Hgs Hfs Hfs0 Hcs Hr | fs cs Hgs Hfs Hfs0 Hcs Hr].
    + subst gs. reflexivity.
    + apply length_eqb_0_false in Hgs. rewrite Hgs, Hfs. reflexivity.
    + apply length_eqb_0_false in Hgs, Hfs0. rewrite Hgs, Hfs. cbn [bind].
      rewrite Hfs0, Hcs. cbn [bind]. cbv zeta. rewrite Hr. reflexivity.
    + apply length_eqb_0_false in Hgs, Hfs0, Hr. rewrite Hgs, Hfs. cbn [bind].
      rewrite Hfs0, Hcs. cbn [bind]. cbv zeta. rewrite Hr. reflexivity.
Qed.

(** Whatever the outcome, the outfits are the ranked candidates, stamped. *)
Lemma outcome_outfits (clock : nat -> Z) (gs : list Garment.t)
    (input : Input.t) (out : Output.t) :
  outcome clock gs input out ->
  Output.outfits out = []
  \/ exists fs cs,
       filterByContext gs input = Ok fs
       /\ generateCandidates fs (mood_or_casual input) = Ok cs
       /\ Output.outfits out = mapi (toOutfit clock input) (rank cs input).
Proof.
  intros [Hgs | Hgs Hfs | fs cs Hgs Hfs Hfs0 Hcs Hr | fs cs Hgs Hfs Hfs0 Hcs Hr];
    simpl; auto.
  right. now exists fs, cs.
Qed.

(** Once filtering and generation complete, so does the request. *)
Lemma generateOutfits_completes (clock : nat -> Z) (gs fs : list Garment.t)
    (input : Input.t) (cs : list Candidate.t) :
  gs <> [] ->
  filterByContext gs input = Ok fs -> fs <> [] ->
  generateCandidates fs (mood_or_casual input) = Ok cs ->
  exists out,
    generateOutfits clock gs input = Ok out
    /\ Output.outfits out = mapi (toOutfit clock input) (rank cs input).
Proof.
  intros Hgs Hfs Hfs0 Hcs.
  destruct (rank cs input) as [|c r] eqn:Hr.
  - exists (empty_result no_quality_message). split; [|reflexivity].
    apply generateOutfits_outcome. now apply (NoQualifyingOutfits _ _ _ fs cs).
  - eexists. split.
    + apply generateOutfits_outcome. apply (Recommended _ _ _ fs cs);
        try assumption. now rewrite Hr.
    + now rewrite Hr.
Qed.

Lemma filterByContext_incl (gs fs : list Garment.t) (input : Input.t) :
  filterByContext gs input = Ok fs -> incl fs gs.
Proof. apply filterM_incl. Qed.

(* ================================================================= *)
(** ** Ranked results *)





(* ================================================================= *)
(** ** Outcomes without outfits *)

Lemma rank_nil (input : Input.t) : rank [] input = [].
Proof.
  unfold rank. destruct (slice0_firstn (A := Candidate.t) [] (limit_or_6 input))
    as [n Hn].
  simpl in *. rewrite Hn. apply firstn_nil.
Qed.

Lemma generateCandidates_nothing (fs : list Garment.t) (mood : string) :
  of_category tops fs = [] \/ of_category bottoms fs = [] ->
  generateCandidates fs mood = Ok [].
Proof.
  intros H. unfold generateCandidates. rewrite !groupByCategory_get.
  destruct H as [-> | ->]; simpl; [reflexivity|].
  now rewrite orb_true_r.
Qed.

Lemma messages_distinct :
  no_quality_message <> empty_wardrobe_message
  /\ no_quality_message <> no_suitable_message
  /\ no_suitable_message <> empty_wardrobe_message.
Proof. repeat split; discriminate. Qed.

(** C3 (amended). When garments survive the context filter but there is no
    top or no bottom among them, [generateOutfits] returns no outfit, a
    [totalGenerated] of 0 and the explanation of the ranking stage ("No
    high-quality outfit combinations found ..."), which differs from the
    explanation of an empty wardrobe and from the one given when nothing
    survives the filter. *)
Theorem no_top_or_bottom_outcome (clock : nat -> Z) (gs fs : list Garment.t)
    (input : Input.t) :
  gs <> [] ->
  filterByContext gs input = Ok fs -> fs <> [] ->
  of_category tops fs = [] \/ of_category bottoms fs = [] ->
  generateOutfits clock gs input = Ok (empty_result no_quality_message)
  /\ no_quality_message <> empty_wardrobe_message
  /\ no_quality_message <> no_suitable_message.
Proof.
  intros Hgs Hfs Hfs0 Hnone. split; [|split; apply messages_distinct].
  apply generateOutfits_outcome.
  apply (NoQualifyingOutfits _ _ _ fs []); try assumption.
  - now apply generateCandidates_nothing.
  - apply rank_nil.
Qed.

Lemma no_top_or_bottom_outcome_witness :
  generateOutfits (ticking 1000) [white_sneakers; gold_necklace]
    (request None None None)
  = Ok (empty_result no_quality_message).
Proof.
  apply (no_top_or_bottom_outcome (ticking 1000)
           [white_sneakers; gold_necklace] [white_sneakers; gold_necklace]).
  - discriminate.
  - reflexivity.
  - discriminate.
  - left. reflexivity.
Defined.

(** C3 as stated fails: a wardrobe of shoes and accessories gets the
    explanation of the ranking stage, not the "no suitable outfits" one. *)
Lemma shoes_and_accessories_explanation :
  exists out,
    generateOutfits (ticking 1000) [white_sneakers; gold_necklace]
      (request None None None) = Ok out
    /\ Output.outfits out = []
    /\ Output.explanation out = no_quality_message
    /\ Output.explanation out <> no_suitable_message.
Proof.
  eexists. split; [reflexivity|]. split; [reflexivity|].
  split; [reflexivity|]. simpl. discriminate.
Qed.

(* ================================================================= *)
(** ** What the response reports *)

(** C10. In every outcome [totalGenerated] is the number of returned
    outfits: 0 in the three outcomes without outfits, and otherwise the
    length of the ranked list (after the threshold and the cut), whatever
    the number of candidates generated. *)
Theorem totalGenerated_counts_outfits (clock : nat -> Z)
    (gs : list Garment.t) (input : Input.t) (out : Output.t) :
  generateOutfits clock gs input = Ok out ->
  Output.totalGenerated out = Z.of_nat (List.length (Output.outfits out))
  /\ (out = empty_result empty_wardrobe_message
      \/ out = empty_result no_suitable_message
      \/ out = empty_result no_quality_message
      \/ exists fs cs,
           filterByContext gs input = Ok fs
           /\ generateCandidates fs (mood_or_casual input) = Ok cs
           /\ rank cs input <> []
           /\ Output.totalGenerated out
              = Z.of_nat (List.length (rank cs input))).
Proof.
  intros H. apply generateOutfits_outcome in H.
  destruct H as [Hgs | Hgs Hfs | fs cs Hgs Hfs Hfs0 Hcs Hr
                | fs cs Hgs Hfs Hfs0 Hcs Hr]; (split; [reflexivity|]); auto.
  right. right. right. exists fs, cs. repeat split; try assumption.
  simpl. unfold mapi. now rewrite mapi_from_length.
Qed.

Lemma totalGenerated_counts_outfits_witness :
  exists out,
    generateOutfits (ticking 1000) MOCK_GARMENTS (request None None (Some 2))
    = Ok out
    /\ Output.totalGenerated out = Z.of_nat (List.length (Output.outfits out)).
Proof.
  eexists. split; [reflexivity|].
  apply (totalGenerated_counts_outfits (ticking 1000) MOCK_GARMENTS
           (request None None (Some 2))).
  reflexivity.
Defined.

(* ================================================================= *)
(** ** Composition of the returned outfits *)

Lemma composed_of_incl (fs gs pieces : list Garment.t) :
  incl fs gs -> composed_of fs pieces -> composed_of gs pieces.
Proof.
  intros Hincl [top [bottom [shoe [accessory [Ht [Hb [Hs [Ha Hp]]]]]]]].
  exists top, bottom, shoe, accessory.
  split; [split; [apply Hincl|]; apply Ht|].
  split; [split; [apply Hincl|]; apply Hb|].
  split; [|split; [|exact Hp]].
  - intros s Hshoe. destruct (Hs s Hshoe). split; [apply Hincl|]; assumption.
  - intros a Hacc. destruct (Ha a Hacc). split; [apply Hincl|]; assumption.
Qed.

Lemma composed_of_In (gs pieces : list Garment.t) (g : Garment.t) :
  composed_of gs pieces -> In g pieces -> In g gs.
Proof.
  intros [top [bottom [shoe [accessory [Ht [Hb [Hs [Ha ->]]]]]]]] Hg.
  simpl in Hg. destruct Hg as [<-|[<-|Hg]]; [apply Ht | apply Hb |].
  apply in_app_or in Hg as [Hg|Hg].
  - destruct shoe as [s|]; [|contradiction].
    destruct Hg as [<-|[]]. now apply (Hs s).
  - destruct accessory as [a|]; [|contradiction].
    destruct Hg as [<-|[]]. now apply (Ha a).
Qed.

(** Every returned outfit stems from a generated candidate of a score of at
    least 60. *)
Lemma returned_outfit_origin (clock : nat -> Z) (gs : list Garment.t)
    (input : Input.t) (out : Output.t) (o : Outfit.t) :
  generateOutfits clock gs input = Ok out -> In o (Output.outfits out) ->
  exists fs cs c index,
    filterByContext gs input = Ok fs
    /\ generateCandidates fs (mood_or_casual input) = Ok cs
    /\ In c cs
    /\ o = toOutfit clock input index c.
Proof.
  intros Hout Ho. apply generateOutfits_outcome, outcome_outfits in Hout.
  destruct Hout as [Hnil | [fs [cs [Hfs [Hcs Houtfits]]]]].
  - rewrite Hnil in Ho. contradiction.
  - rewrite Houtfits in Ho. apply mapi_from_In in Ho as [j [c [Hc ->]]].
    apply rank_In in Hc as [Hc _]. now exists fs, cs, c, j.
Qed.



(* ================================================================= *)
(** ** The closing reason *)

Ltac each_inherited_key H :=
  apply mem_iff_In in H; simpl in H;
  repeat (destruct H as [<-|H]; [reflexivity|]); contradiction.

Lemma moodTags_inherited (k : string) :
  mem k ObjectPrototypeKeys = true -> get moodTags k = Inherited k.
Proof. intros H. each_inherited_key H. Qed.

(** Scoring a non-empty outfit under a mood that names an inherited member
    throws at the first tag of the first garment. *)
Lemma scoreMoodAlignment_inherited (g : Garment.t) (gs : list Garment.t)
    (k : string) :
  mem k ObjectPrototypeKeys = true ->
  scoreMoodAlignment (g :: gs) k = TypeError.
Proof.
  intros H. unfold scoreMoodAlignment. now rewrite (moodTags_inherited k H).
Qed.

Lemma scoreOutfit_Ok_plain (g : Garment.t) (gs all : list Garment.t)
    (mood : string) (s : Z) :
  scoreOutfit (g :: gs) mood all = Ok s ->
  mem mood ObjectPrototypeKeys = false.
Proof.
  intros H. destruct (mem mood ObjectPrototypeKeys) eqn:Hk; [|reflexivity].
  unfold scoreOutfit in H.
  now rewrite (scoreMoodAlignment_inherited g gs mood Hk) in H.
Qed.

Lemma generateReasons_last (pieces : list Garment.t) (mood : string) :
  last (generateReasons pieces mood) (Text "") = moodDescription mood.
Proof. unfold generateReasons. cbv zeta. apply last_last. Qed.

Lemma moodDescription_plain (input : Input.t) :
  mem (mood_or_casual input) ObjectPrototypeKeys = false ->
  moodDescription (mood_or_casual input)
  = Text (closing_description (Input.mood input)).
Proof.
  unfold moodDescription. intros Hk. rewrite (get_plain _ _ _ Hk).
  unfold mood_or_casual, closing_description, truthy.
  destruct (Input.mood input) as [m|]; [|reflexivity].
  destruct (m =? "")%string; [reflexivity|]. cbn.
  repeat match goal with
         | |- context [(m =? ?k)%string] =>
             destruct (m =? k)%string; [reflexivity|]
         end.
  reflexivity.
Qed.

(** C8 (amended). The last reason of every candidate is the fixed closing
    description of the mood of the request ("Comfortable and warm" for
    "cozy"); it is the description of "casual", "Perfect for a relaxed day",
    when the request has no mood, and the generic "Well-coordinated look"
    when the mood is not one of the seven documented ones. *)
Theorem closing_reason (input : Input.t) (fs : list Garment.t)
    (cs : list Candidate.t) (c : Candidate.t) :
  generateCandidates fs (mood_or_casual input) = Ok cs -> In c cs ->
  let closing := last (Candidate.reasons c) (Text "") in
  closing = Text (closing_description (Input.mood input))
  /\ (Input.mood input = Some "cozy" -> closing = Text "Comfortable and warm")
  /\ (Input.mood input = None -> closing = Text "Perfect for a relaxed day")
  /\ (forall m, Input.mood input = Some m -> m <> "" ->
                mem m Moods = false ->
                closing = Text "Well-coordinated look").
Proof.
  intros Hcs Hc closing.
  destruct (generateCandidates_In fs _ cs c Hcs Hc)
    as [pieces [Hcomp [_ [Hscore Hreasons]]]].
  assert (closing = Text (closing_description (Input.mood input))) as Hclosing.
  { unfold closing. rewrite Hreasons, generateReasons_last.
    apply moodDescription_plain.
    destruct Hcomp as [top [bottom [shoe [accessory [_ [_ [_ [_ ->]]]]]]]].
    eapply scoreOutfit_Ok_plain. exact Hscore. }
  split; [exact Hclosing|]. rewrite Hclosing.
  split; [|split].
  - now intros ->.
  - now intros ->.
  - intros m -> Hm Hunknown. unfold closing_description.
    apply String.eqb_neq in Hm. rewrite Hm.
    unfold Moods in Hunknown. simpl in Hunknown.
    repeat (apply orb_false_iff in Hunknown as [-> Hunknown]). reflexivity.
Qed.

Lemma closing_reason_witness :
  exists c,
    generateCandidates [wool_sweater; khaki_chinos] "cozy" = Ok [c]
    /\ last (Candidate.reasons c) (Text "") = Text "Comfortable and warm".
Proof.
  eexists. split; [cbv; reflexivity|].
  refine (proj1 (proj2 (closing_reason (request (Some "cozy") None None)
                          [wool_sweater; khaki_chinos] _ _
                          eq_refl (or_introl eq_refl)))
            eq_refl).
Defined.

(** C8 as stated fails for a request without mood: its candidates close on
    the description of "casual", not on the generic text. *)
Lemma absent_mood_closes_as_casual :
  exists c,
    generateCandidates [blue_linen_shirt; black_skinny_jeans]
      (mood_or_casual (request None None None)) = Ok [c]
    /\ last (Candidate.reasons c) (Text "") = Text "Perfect for a relaxed day"
    /\ last (Candidate.reasons c) (Text "") <> Text "Well-coordinated look".
Proof.
  eexists. split; [cbv; reflexivity|]. split; [reflexivity|].
  simpl. discriminate.
Qed.

(* ================================================================= *)
(** ** The clock *)

Lemma unstamped_toOutfit (clock : nat -> Z) (input : Input.t) (index : nat)
    (c : Candidate.t) :
  unstamped (toOutfit clock input index c)
  = (Input.userId input, Candidate.garmentIds c, Input.weather input,
     Input.mood input,
     join " • " (map reason_text (Candidate.reasons c)),
     Candidate.score c).
Proof. reflexivity. Qed.

(** C9. The response of [generateOutfits] to a wardrobe and a request is the
    same under any two clocks once the [id] and [createdAt] of its outfits
    are set aside: same outfits in the same order with the same garments,
    scores and explanations, same overall explanation, same
    [totalGenerated]; and the request throws under one clock exactly when it
    throws under the other. *)
Theorem generateOutfits_ignores_clock (clock1 clock2 : nat -> Z)
    (gs : list Garment.t) (input : Input.t) :
  map_result observable (generateOutfits clock1 gs input)
  = map_result observable (generateOutfits clock2 gs input).
Proof.
  unfold generateOutfits.
  destruct (List.length gs =? 0)%nat; [reflexivity|].
  destruct (filterByContext gs input) as [fs|]; [|reflexivity]. cbn [bind].
  destruct (List.length fs =? 0)%nat; [reflexivity|].
  destruct (generateCandidates fs (mood_or_casual input)) as [cs|];
    [|reflexivity].
  cbn [bind]. cbv zeta.
  destruct (List.length (rank cs input) =? 0)%nat; [reflexivity|].
  unfold map_result, observable, mapi. cbn [bind Output.outfits
    Output.explanation Output.totalGenerated].
  rewrite !mapi_from_length.
  rewrite (map_mapi_from (toOutfit clock1 input) unstamped
             (fun c => unstamped (toOutfit clock1 input 0 c)))
    by reflexivity.
  rewrite (map_mapi_from (toOutfit clock2 input) unstamped
             (fun c => unstamped (toOutfit clock1 input 0 c)))
    by reflexivity.
  reflexivity.
Qed.

(* ================================================================= *)
(** ** Values outside the enumerations *)

Lemma filterM_total {A} (p : A -> result bool) (l : list A) :
  (forall x, In x l -> exists b, p x = Ok b) -> exists r, filterM p l = Ok r.
Proof.
  induction l as [|x l IH]; intros Hp; simpl; [now exists []|].
  destruct (Hp x (or_introl eq_refl)) as [b ->].
  destruct IH as [r ->]; [intros y Hy; apply Hp; now right|].
  simpl. eauto.
Qed.

Lemma get_plain_member {A} (rec : list (string * A)) (k : string) :
  mem k ObjectPrototypeKeys = false ->
  get rec k = match assoc k rec with Some a => Own a | None => Undefined end.
Proof.
  intros Hk. unfold get. destruct (assoc k rec); [reflexivity|].
  now rewrite Hk.
Qed.

Lemma isSeasonAppropriate_total (season weather : string) (t : option Z) :
  mem weather ObjectPrototypeKeys = false ->
  exists b, isSeasonAppropriate season weather t = Ok b.
Proof.
  intros Hk. unfold isSeasonAppropriate.
  destruct (season =? "all-season")%string; [eauto|].
  rewrite (get_plain_member _ _ Hk).
  destruct (assoc weather weatherSeasonMap); simpl; eauto.
Qed.

(** Under a weather outside the enumeration only all-season garments pass
    the season check. *)
Lemma isSeasonAppropriate_unknown (season weather : string) (t : option Z) :
  mem weather ObjectPrototypeKeys = false ->
  mem weather WeatherConditions = false ->
  isSeasonAppropriate season weather t = Ok (season =? "all-season")%string.
Proof.
  intros Hk Hunknown. unfold isSeasonAppropriate.
  destruct (season =? "all-season")%string; [reflexivity|].
  rewrite (get_plain_member _ _ Hk), (assoc_None weatherSeasonMap _ Hunknown).
  reflexivity.
Qed.

Lemma filterByContext_total (gs : list Garment.t) (input : Input.t) :
  (forall w, Input.weather input = Some w ->
             mem w ObjectPrototypeKeys = false) ->
  exists fs, filterByContext gs input = Ok fs.
Proof.
  intros Hw. unfold filterByContext. apply filterM_total. intros g _.
  destruct (Input.weather input) as [w|].
  - destruct (truthy (Some w)).
    + destruct (isSeasonAppropriate_total (Garment.season g) w
                  (Input.temperature input) (Hw w eq_refl)) as [b ->].
      simpl. destruct b; simpl; [|eauto].
      destruct (Input.temperature input); [|eauto].
      destruct (negb _); eauto.
    + simpl. destruct (Input.temperature input); [|eauto].
      destruct (negb _); eauto.
  - simpl. destruct (Input.temperature input); [|eauto].
    destruct (negb _); eauto.
Qed.



Lemma mood_or_casual_plain (input : Input.t) :
  (forall m, Input.mood input = Some m -> mem m ObjectPrototypeKeys = false) ->
  mem (mood_or_casual input) ObjectPrototypeKeys = false.
Proof.
  intros Hm. unfold mood_or_casual.
  destruct (Input.mood input) as [m|]; [|reflexivity].
  destruct (truthy (Some m)); [now apply Hm | reflexivity].
Qed.




(** A mood that names an inherited member, here "toString", makes the
    request throw as soon as a candidate is scored. *)
Lemma inherited_mood_throws :
  generateOutfits (ticking 1000) [blue_linen_shirt; black_skinny_jeans]
    (request (Some "toString") None None) = TypeError.
Proof. reflexivity. Qed.

Lemma inherited_weather_throws :
  generateOutfits (ticking 1000) [blue_linen_shirt; black_skinny_jeans]
    (request None (Some "constructor") None) = TypeError.
Proof. reflexivity. Qed.


(* ================================================================= *)
(** ** Further properties of the service *)

(** *** The threshold *)

Lemma scoreStyleCoherence_floor (gs : list Garment.t) :
  (2 <= List.length gs)%nat -> 5 <= scoreStyleCoherence gs.
Proof.
  intros Hlen. unfold scoreStyleCoherence.
  destruct (List.length gs <? 2)%nat eqn:H; [apply Nat.ltb_lt in H; lia|].
  destruct (List.length _ =? 0)%nat; [lia|].
  destruct (0 <? List.length _)%nat; [lia|].
  destruct (_ || _); lia.
Qed.

Lemma scoreOutfit_floor (gs : list Garment.t) (mood : string)
    (all : list Garment.t) (s : Z) :
  (2 <= List.length gs)%nat -> scoreOutfit gs mood all = Ok s -> 60 <= s.
Proof.
  intros Hlen H. unfold scoreOutfit in H.
  apply bind_Ok in H as [moodScore [Hmood H]].
  apply bind_Ok in H as [occasionScore [Hocc H]].
  apply Ok_inj in H. subst s.
  apply scoreMoodAlignment_range in Hmood.
  apply scoreOccasionMatching_range in Hocc.
  pose proof (scoreColorHarmony_range gs).
  pose proof (scoreStyleCoherence_floor gs Hlen).
  pose proof (scoreVersatility_range gs).
  pose proof (scoreDiversity_range gs).
  cbv zeta. lia.
Qed.

Lemma composed_of_length (gs pieces : list Garment.t) :
  composed_of gs pieces -> (2 <= List.length pieces <= 4)%nat.
Proof.
  intros [top [bottom [shoe [accessory [_ [_ [_ [_ ->]]]]]]]].
  destruct shoe, accessory; simpl; lia.
Qed.

Lemma generateCandidates_threshold (fs : list Garment.t) (mood : string)
    (cs : list Candidate.t) :
  generateCandidates fs mood = Ok cs ->
  Forall (fun c => MIN_SCORE_THRESHOLD <= Candidate.score c) cs.
Proof.
  intros Hcs. apply Forall_forall. intros c Hc.
  destruct (generateCandidates_In fs mood cs c Hcs Hc)
    as [pieces [Hcomp [_ [Hscore _]]]].
  apply composed_of_length in Hcomp.
  apply scoreOutfit_floor in Hscore; [exact Hscore | lia].
Qed.

Lemma filter_all {A} (p : A -> bool) (l : list A) :
  Forall (fun x => p x = true) l -> filter p l = l.
Proof.
  induction 1 as [|x l Hx _ IH]; simpl; [reflexivity|].
  now rewrite Hx, IH.
Qed.

(** No generated candidate is ever dropped by the threshold. *)
Lemma rank_without_threshold (fs : list Garment.t) (input : Input.t)
    (cs : list Candidate.t) :
  generateCandidates fs (mood_or_casual input) = Ok cs ->
  rank cs input = slice0 (sort_desc cs) (limit_or_6 input).
Proof.
  intros Hcs. unfold rank. rewrite filter_all; [reflexivity|].
  apply Forall_forall. intros c Hc.
  apply (Permutation_in _ (sort_desc_perm cs)) in Hc.
  pose proof (generateCandidates_threshold _ _ _ Hcs) as Hall.
  rewrite Forall_forall in Hall. specialize (Hall c Hc).
  unfold MIN_SCORE_THRESHOLD in *. lia.
Qed.

(** X1. Every candidate the generator builds has at least two pieces, so
    its score is at least 50 + 5 (style) + 5 (diversity): it reaches the
    threshold of 60, and the threshold filter of [generateOutfits] removes
    nothing from the sorted candidates. *)
Theorem candidates_reach_threshold (fs : list Garment.t) (mood : string)
    (cs : list Candidate.t) :
  generateCandidates fs mood = Ok cs ->
  Forall (fun c => MIN_SCORE_THRESHOLD <= Candidate.score c) cs
  /\ filter (fun c => Candidate.score c >=? MIN_SCORE_THRESHOLD) (sort_desc cs)
     = sort_desc cs.
Proof.
  intros Hcs. pose proof (generateCandidates_threshold _ _ _ Hcs) as Hall.
  split; [exact Hall|].
  apply filter_all, Forall_forall. intros c Hc.
  apply (Permutation_in _ (sort_desc_perm cs)) in Hc.
  rewrite Forall_forall in Hall. specialize (Hall c Hc). lia.
Qed.

Lemma candidates_reach_threshold_witness :
  exists cs,
    generateCandidates MOCK_GARMENTS "bold" = Ok cs
    /\ Forall (fun c => MIN_SCORE_THRESHOLD <= Candidate.score c) cs.
Proof.
  eexists. split; [cbv; reflexivity|].
  refine (proj1 (candidates_reach_threshold MOCK_GARMENTS "bold" _ eq_refl)).
Defined.

(** *** How many outfits come back *)


Lemma sort_desc_length (cs : list Candidate.t) :
  List.length (sort_desc cs) = List.length cs.
Proof. apply Permutation_length, sort_desc_perm. Qed.

(** The ranked list of a completed request, whatever its outcome. *)
Lemma outcome_ranked (clock : nat -> Z) (gs fs : list Garment.t)
    (input : Input.t) (out : Output.t) :
  filterByContext gs input = Ok fs ->
  generateOutfits clock gs input = Ok out ->
  exists cs,
    generateCandidates fs (mood_or_casual input) = Ok cs
    /\ Output.outfits out = mapi (toOutfit clock input) (rank cs input).
Proof.
  intros Hfs Hout. apply generateOutfits_outcome in Hout.
  destruct Hout as [Hgs | Hgs Hfs' | fs' cs Hgs Hfs' Hfs0 Hcs Hr
                   | fs' cs Hgs Hfs' Hfs0 Hcs Hr].
  - subst gs. apply Ok_inj in Hfs. subst fs. exists []. split; [reflexivity|].
    now rewrite rank_nil.
  - rewrite Hfs in Hfs'. apply Ok_inj in Hfs'. subst fs.
    exists []. split; [reflexivity|]. now rewrite rank_nil.
  - rewrite Hfs in Hfs'. apply Ok_inj in Hfs'. subst fs'.
    exists cs. split; [assumption|]. now rewrite Hr.
  - rewrite Hfs in Hfs'. apply Ok_inj in Hfs'. subst fs'.
    exists cs. now split.
Qed.

Lemma mapi_length {A B} (f : nat -> A -> B) (l : list A) :
  List.length (mapi f l) = List.length l.
Proof. apply mapi_from_length. Qed.



(** X3. A negative limit -k is not rejected: [slice(0, -k)] drops the k
    lowest-ranked candidates, so the response has max(n - k, 0) outfits out
    of the n candidates of the filtered wardrobe. *)
Theorem negative_limit_drops_from_the_end (clock : nat -> Z)
    (gs fs : list Garment.t) (input : Input.t) (out : Output.t)
    (cs : list Candidate.t) (n : Z) :
  filterByContext gs input = Ok fs ->
  generateCandidates fs (mood_or_casual input) = Ok cs ->
  generateOutfits clock gs input = Ok out ->
  Input.limitCount input = Some n -> n < 0 ->
  map Outfit.garmentIds (Output.outfits out)
  = map Candidate.garmentIds
      (firstn (List.length cs - Z.to_nat (- n)) (sort_desc cs))
  /\ Z.of_nat (List.length (Output.outfits out))
     = Z.max (Z.of_nat (List.length cs) + n) 0.
Proof.
  intros Hfs Hcs Hout Hlimit Hneg.
  destruct (outcome_ranked clock gs fs input out Hfs Hout) as [cs' [Hcs' Houtfits]].
  rewrite Hcs in Hcs'. apply Ok_inj in Hcs'. subst cs'.
  rewrite (rank_without_threshold fs input cs Hcs) in Houtfits.
  assert (limit_or_6 input = n) as Hlim.
  { unfold limit_or_6. rewrite Hlimit. destruct (n =? 0) eqn:H0; lia. }
  rewrite Hlim in Houtfits. unfold slice0 in Houtfits.
  destruct (n <? 0) eqn:Hn; [|lia]. rewrite sort_desc_length in Houtfits.
  replace (Z.to_nat (Z.max (Z.of_nat (List.length cs) + n) 0))
    with (List.length cs - Z.to_nat (- n))%nat in Houtfits by lia.
  split.
  - rewrite Houtfits. now apply map_mapi_from.
  - rewrite Houtfits, mapi_length, length_firstn, sort_desc_length. lia.
Qed.

Lemma negative_limit_drops_from_the_end_witness :
  generateOutfits (ticking 1000) [blue_linen_shirt; black_skinny_jeans]
    (request None None (Some (-1))) = Ok (empty_result no_quality_message)
  /\ Z.of_nat (List.length (Output.outfits (empty_result no_quality_message)))
     = Z.max (1 + -1) 0.
Proof.
  split; [reflexivity|].
  refine (proj2 (negative_limit_drops_from_the_end (ticking 1000)
                   [blue_linen_shirt; black_skinny_jeans]
                   [blue_linen_shirt; black_skinny_jeans]
                   (request None None (Some (-1)))
                   (empty_result no_quality_message)
                   [Candidate.mk ["g1"; "g2"] 73
                      [Text "Neutral base for easy coordination";
                       Text "Cohesive classic aesthetic";
                       Text "Comfortable and approachable";
                       Text "Perfect for a relaxed day"]]
                   (-1) eq_refl eq_refl eq_refl eq_refl eq_refl)).
Defined.

(** *** The context filter *)

Section FilterM.

Context {A : Type} (p : A -> result bool).

Lemma filterM_filter (l r : list A) :
  filterM p l = Ok r ->
  r = filter (fun x => match p x with Ok true => true | _ => false end) l.
Proof.
  revert r; induction l as [|x l IH]; intros r; simpl.
  - now intros [= <-].
  - intros H. apply bind_Ok in H as [keep [Hkeep H]].
    apply bind_Ok in H as [r' [Hr' H]]. apply Ok_inj in H. subst r.
    rewrite Hkeep, <- (IH r' Hr'). now destruct keep.
Qed.

Lemma filterM_In (l r : list A) (x : A) :
  filterM p l = Ok r -> (In x r <-> In x l /\ p x = Ok true).
Proof.
  intros H. rewrite (filterM_filter l r H), filter_In.
  destruct (p x) as [[|]|]; intuition congruence.
Qed.

Lemma filterM_idempotent (l r : list A) :
  filterM p l = Ok r -> filterM p r = Ok r.
Proof.
  revert r; induction l as [|x l IH]; intros r; simpl.
  - now intros [= <-].
  - intros H. apply bind_Ok in H as [keep [Hkeep H]].
    apply bind_Ok in H as [r' [Hr' H]]. apply Ok_inj in H. subst r.
    specialize (IH r' Hr'). destruct keep; [|assumption].
    simpl. now rewrite Hkeep, IH.
Qed.

End FilterM.

Lemma truthy_Some (w : string) : truthy (Some w) = true <-> w <> "".
Proof.
  unfold truthy. rewrite negb_true_iff. apply String.eqb_neq.
Qed.

Lemma season_part_suits (input : Input.t) (g : Garment.t) :
  match Input.weather input with
  | Some weather =>
      if truthy (Some weather)
      then isSeasonAppropriate (Garment.season g) weather
             (Input.temperature input)
      else Ok true
  | None => Ok true
  end = Ok true
  <-> season_suits input g.
Proof.
  unfold season_suits. destruct (Input.weather input) as [w|].
  - destruct (truthy (Some w)) eqn:Hw.
    + apply truthy_Some in Hw. split.
      * now intros H w' [= <-] _.
      * intros H. now apply H.
    + split; [|reflexivity]. intros _ w' [= <-] Hne.
      apply truthy_Some in Hne. congruence.
  - split; [discriminate | reflexivity].
Qed.

Lemma temperature_part_suits (input : Input.t) (g : Garment.t) :
  match Input.temperature input with
  | Some temperature =>
      if negb (isTemperatureAppropriate g temperature)
      then Ok false else Ok true
  | None => Ok true
  end = Ok true
  <-> temperature_suits input g.
Proof.
  unfold temperature_suits. destruct (Input.temperature input) as [t|].
  - destruct (isTemperatureAppropriate g t) eqn:Ht; simpl; split.
    + now intros _ t' [= <-].
    + reflexivity.
    + discriminate.
    + intros H. specialize (H t eq_refl). congruence.
  - split; [discriminate | reflexivity].
Qed.

Lemma both_checks (r t : result bool) :
  (seasonOk <- r ;; if negb seasonOk then Ok false else t) = Ok true
  <-> r = Ok true /\ t = Ok true.
Proof.
  destruct r as [[|]|]; simpl; split; try tauto; try discriminate;
    intros [H _]; discriminate.
Qed.

(** X4. The context filter keeps exactly the garments that pass the season
    check (when a weather is given) and the temperature check (when a
    temperature is given), in wardrobe order; filtering its result again
    changes nothing. *)
Theorem filterByContext_keeps (gs fs : list Garment.t) (input : Input.t) :
  filterByContext gs input = Ok fs ->
  (forall g, In g fs
             <-> In g gs /\ season_suits input g /\ temperature_suits input g)
  /\ (exists keep, fs = filter keep gs)
  /\ filterByContext fs input = Ok fs.
Proof.
  intros Hfs. split; [|split].
  - intros g. unfold filterByContext in Hfs.
    rewrite (filterM_In _ gs fs g Hfs), both_checks.
    now rewrite season_part_suits, temperature_part_suits.
  - eexists. apply (filterM_filter _ gs fs Hfs).
  - exact (filterM_idempotent _ gs fs Hfs).
Qed.

Lemma filterByContext_keeps_witness :
  In khaki_chinos [black_skinny_jeans; white_sneakers; wool_sweater;
                   khaki_chinos; leather_jacket; gold_necklace]
  <-> In khaki_chinos MOCK_GARMENTS
      /\ season_suits (request None (Some "rainy") None) khaki_chinos
      /\ temperature_suits (request None (Some "rainy") None) khaki_chinos.
Proof.
  refine (proj1 (filterByContext_keeps MOCK_GARMENTS
                   [black_skinny_jeans; white_sneakers; wool_sweater;
                    khaki_chinos; leather_jacket; gold_necklace]
                   (request None (Some "rainy") None) eq_refl) khaki_chinos).
Defined.

(** X5. A wardrobe of all-season garments passes the context filter
    untouched under any weather text whatever (a weather outside the
    enumeration included, and without any exception), as long as the
    temperature is absent or between 10 and 25 degrees. *)
Theorem all_season_wardrobe_unfiltered (gs : list Garment.t)
    (input : Input.t) :
  Forall (fun g => Garment.season g = "all-season") gs ->
  (forall t, Input.temperature input = Some t -> 10 <= t <= 25) ->
  filterByContext gs input = Ok gs.
Proof.
  intros Hseason Htemp. unfold filterByContext.
  rewrite filterM_pure with (q := fun _ => true).
  - f_equal. apply filter_all. now apply Forall_forall.
  - intros g Hg. rewrite Forall_forall in Hseason.
    assert (forall w, isSeasonAppropriate (Garment.season g) w
                        (Input.temperature input) = Ok true) as Hok.
    { intros w. unfold isSeasonAppropriate. now rewrite (Hseason g Hg). }
    assert (match Input.temperature input with
            | Some temperature =>
                if negb (isTemperatureAppropriate g temperature)
                then Ok false else Ok true
            | None => Ok true
            end = Ok true) as Htemp_ok.
    { destruct (Input.temperature input) as [t|]; [|reflexivity].
      specialize (Htemp t eq_refl). unfold isTemperatureAppropriate.
      destruct (t >? 25) eqn:Hhot; [lia|].
      destruct (t <? 10) eqn:Hcold; [lia | reflexivity]. }
    destruct (Input.weather input) as [w|].
    + destruct (truthy (Some w)); [rewrite Hok|]; simpl; exact Htemp_ok.
    + simpl. exact Htemp_ok.
Qed.

Lemma all_season_wardrobe_unfiltered_witness :
  filterByContext [black_skinny_jeans; white_sneakers; gold_necklace]
    (Input.mk "user1" None (Some "constructor") (Some 18) None None)
  = Ok [black_skinny_jeans; white_sneakers; gold_necklace].
Proof.
  apply all_season_wardrobe_unfiltered.
  - repeat constructor.
  - intros t [= <-]. lia.
Defined.

(** *** Grouping by category *)

Section GroupInvariant.

Lemma map_set_fresh (m : CategoryMap) (k : GarmentCategory)
    (v : list Garment.t) :
  map_get m k = None -> map_set m k v = m ++ [(k, v)].
Proof.
  induction m as [|[k' v'] m IH]; simpl; [reflexivity|].
  destruct (category_eqb k k'); [discriminate|].
  intros H. now rewrite IH.
Qed.

Lemma map_set_keys (m : CategoryMap) (k : GarmentCategory)
    (v old : list Garment.t) :
  map_get m k = Some old -> map fst (map_set m k v) = map fst m.
Proof.
  induction m as [|[k' v'] m IH]; simpl; [discriminate|].
  destruct (category_eqb k k') eqn:Hk; simpl.
  - apply category_eqb_eq in Hk. now subst.
  - intros H. now rewrite IH.
Qed.

Lemma map_set_values (m : CategoryMap) (k : GarmentCategory)
    (old : list Garment.t) (g : Garment.t) :
  map_get m k = Some old ->
  Permutation (List.concat (map snd (map_set m k (old ++ [g]))))
    (g :: List.concat (map snd m)).
Proof.
  induction m as [|[k' v'] m IH]; simpl; [discriminate|].
  destruct (category_eqb k k') eqn:Hk; simpl.
  - intros [= ->]. rewrite <- app_assoc. symmetry.
    apply Permutation_cons_app. reflexivity.
  - intros H. rewrite (IH H). symmetry. apply Permutation_middle.
Qed.

Lemma map_get_None_keys (m : CategoryMap) (k : GarmentCategory) :
  map_get m k = None <-> ~ In k (map fst m).
Proof.
  induction m as [|[k' v'] m IH]; simpl; [tauto|].
  destruct (category_eqb k k') eqn:Hk.
  - apply category_eqb_eq in Hk. subst. split; [discriminate | tauto].
  - rewrite IH. split.
    + intros H [->|Hin]; [|tauto]. now rewrite category_eqb_refl in Hk.
    + tauto.
Qed.

Lemma grouped_step (m : CategoryMap) (seen : list Garment.t) (g : Garment.t) :
  grouped m seen ->
  let k := Garment.category g in
  let m1 := if negb (map_has m k) then map_set m k [] else m in
  grouped (map_set m1 k (get_or_nil m1 k ++ [g])) (seen ++ [g]).
Proof.
  intros [Hkeys [Hfull Hperm]] k m1. subst m1. unfold map_has, get_or_nil.
  destruct (map_get m k) as [old|] eqn:Hk; simpl.
  - rewrite Hk. split; [|split].
    + now rewrite (map_set_keys m k _ old Hk).
    + intros c. rewrite map_get_set. destruct (category_eqb c k).
      * intros [= H]. now destruct old.
      * apply Hfull.
    + rewrite (map_set_values m k old g Hk), Hperm.
      apply Permutation_cons_append.
  - rewrite (map_set_fresh m k [] Hk).
    assert (map_get (m ++ [(k, [])]) k = Some []) as Hk1.
    { rewrite <- (map_set_fresh m k [] Hk), map_get_set.
      now rewrite category_eqb_refl. }
    rewrite Hk1. simpl.
    assert (map_set (m ++ [(k, [])]) k [g] = m ++ [(k, [g])]) as ->.
    { clear - Hk. induction m as [|[k' v'] m IH]; simpl.
      - now rewrite category_eqb_refl.
      - simpl in Hk. destruct (category_eqb k k'); [discriminate|].
        now rewrite IH. }
    split; [|split].
    + rewrite map_app. simpl. apply NoDup_app; [assumption | | ].
      * repeat constructor. intros [].
      * intros c Hc [Hck|[]]. subst c. now apply (map_get_None_keys m k).
    + intros c. rewrite <- (map_set_fresh m k [g] Hk), map_get_set.
      destruct (category_eqb c k); [discriminate | apply Hfull].
    + rewrite map_app, concat_app. simpl.
      now apply Permutation_app_tail.
Qed.

Lemma groupByCategory_grouped (gs : list Garment.t) :
  grouped (groupByCategory gs) gs.
Proof.
  unfold groupByCategory.
  enough (forall m seen, grouped m seen ->
            grouped
              (fold_left
                 (fun grouped garment =>
                    let k := Garment.category garment in
                    let grouped := if negb (map_has grouped k)
                                   then map_set grouped k [] else grouped in
                    map_set grouped k (get_or_nil grouped k ++ [garment]))
                 gs m) (seen ++ gs)) as H.
  { apply (H [] []). repeat split; [constructor | discriminate | constructor]. }
  induction gs as [|g gs IH]; intros m seen Hm; simpl.
  - now rewrite app_nil_r.
  - replace (seen ++ g :: gs) with ((seen ++ [g]) ++ gs)
      by now rewrite <- app_assoc.
    apply IH. now apply grouped_step.
Qed.

End GroupInvariant.

(** X6. [groupByCategory] partitions the wardrobe: the map has one key per
    category present and no other (no key twice, no empty group), the group
    of a category lists its garments in wardrobe order, and the groups
    together hold exactly the garments of the wardrobe. *)
Theorem groupByCategory_partition (gs : list Garment.t) :
  NoDup (map fst (groupByCategory gs))
  /\ (forall c,
        map_get (groupByCategory gs) c
        = match of_category c gs with
          | [] => None
          | l => Some l
          end)
  /\ Permutation (List.concat (map snd (groupByCategory gs))) gs.
Proof.
  destruct (groupByCategory_grouped gs) as [Hkeys [Hfull Hperm]].
  split; [assumption|]. split; [|assumption].
  intros c. pose proof (groupByCategory_get gs c) as Hget.
  unfold get_or_nil in Hget. specialize (Hfull c).
  destruct (map_get (groupByCategory gs) c) as [l|].
  - subst l. destruct (of_category c gs); [congruence | reflexivity].
  - now rewrite <- Hget.
Qed.

(** *** Scoring rules *)

Lemma two_distinct_members {A} (l : list A) (x y : A) :
  In x l -> In y l -> x <> y -> (2 <= List.length l)%nat.
Proof.
  destruct l as [|a [|b l]]; simpl; try tauto; try lia.
  intros [<-|[]] [<-|[]]. congruence.
Qed.

Lemma pairs_fold_bounds (colors : list string) (pairs : list (string * string))
    (acc : Z) :
  let step := fun harmonyScore (pair : string * string) =>
                if mem (fst pair) colors && mem (snd pair) colors
                then harmonyScore + 15 else harmonyScore in
  acc <= fold_left step pairs acc
  /\ (forall pair, In pair pairs ->
                   mem (fst pair) colors = true ->
                   mem (snd pair) colors = true ->
                   acc + 15 <= fold_left step pairs acc).
Proof.
  intros step. revert acc. induction pairs as [|p pairs IH]; intros acc; simpl.
  - split; [lia | contradiction].
  - destruct (IH (step acc p)) as [Hmono Hfire].
    assert (acc <= step acc p) as Hstep
        by (unfold step; destruct (_ && _); lia).
    split; [lia|]. intros pair [->|Hin] H1 H2.
    + unfold step at 2. rewrite H1, H2. simpl. fold step. 
      destruct (IH (acc + 15)) as [Hmono' _]. exact Hmono'.
    + specialize (Hfire pair Hin H1 H2). lia.
Qed.

(** X7. An outfit that holds both colours of a complementary pair (blue and
    orange, red and green, yellow and purple; letter case aside) earns at
    least 15 points of colour harmony, and therefore a score of at least
    75. *)
Theorem complementary_pair_bonus (gs : list Garment.t) (mood : string)
    (all : list Garment.t) (g1 g2 : Garment.t) (c1 c2 : string) :
  In (c1, c2) complementaryPairs ->
  In g1 gs -> In g2 gs ->
  toLowerCase (Garment.primaryColor g1) = c1 ->
  toLowerCase (Garment.primaryColor g2) = c2 ->
  15 <= scoreColorHarmony gs
  /\ (forall s, scoreOutfit gs mood all = Ok s -> 75 <= s).
Proof.
  intros Hpair Hg1 Hg2 Hc1 Hc2.
  assert (g1 <> g2) as Hne.
  { intros ->. rewrite Hc1 in Hc2. subst c2.
    simpl in Hpair. destruct Hpair as [H|[H|[H|[]]]]; congruence. }
  pose proof (two_distinct_members gs g1 g2 Hg1 Hg2 Hne) as Hlen.
  assert (15 <= scoreColorHarmony gs) as Hcolor.
  { unfold scoreColorHarmony.
    destruct (List.length gs <? 2)%nat eqn:H; [apply Nat.ltb_lt in H; lia|].
    set (colors := map _ gs).
    assert (mem c1 colors = true /\ mem c2 colors = true) as [H1 H2].
    { split; apply mem_iff_In, in_map_iff; eauto. }
    destruct (pairs_fold_bounds colors complementaryPairs 0) as [_ Hfire].
    specialize (Hfire (c1, c2) Hpair H1 H2). cbv zeta in Hfire.
    destruct (forallb _ colors); destruct (_ >=? _); lia. }
  split; [exact Hcolor|].
  intros s H. unfold scoreOutfit in H.
  apply bind_Ok in H as [moodScore [Hmood H]].
  apply bind_Ok in H as [occasionScore [Hocc H]].
  apply Ok_inj in H. subst s.
  apply scoreMoodAlignment_range in Hmood.
  apply scoreOccasionMatching_range in Hocc.
  pose proof (scoreColorHarmony_range gs).
  pose proof (scoreStyleCoherence_floor gs Hlen).
  pose proof (scoreVersatility_range gs).
  pose proof (scoreDiversity_range gs).
  cbv zeta. lia.
Qed.

Lemma complementary_pair_bonus_witness :
  15 <= scoreColorHarmony
          [blue_linen_shirt;
           Garment.mk "g9" bottoms "Orange" None "summer" []].
Proof.
  refine (proj1 (complementary_pair_bonus
                   [blue_linen_shirt;
                    Garment.mk "g9" bottoms "Orange" None "summer" []]
                   "casual" [] blue_linen_shirt
                   (Garment.mk "g9" bottoms "Orange" None "summer" [])
                   "blue" "orange" _ _ _ eq_refl eq_refl)).
  - left. reflexivity.
  - left. reflexivity.
  - right. left. reflexivity.
Defined.

Lemma repeated_later_found (l1 l2 : list string) (x : string) :
  In x l2 -> repeated_later (l1 ++ x :: l2) <> [].
Proof.
  intros Hx. induction l1 as [|y l1 IH]; simpl.
  - apply mem_iff_In in Hx. rewrite Hx. discriminate.
  - destruct (mem y _); [discriminate | exact IH].
Qed.

Lemma extractStyles_In (tags : list string) (t : string) :
  In t (extractStyles tags)
  <-> In t tags
      /\ existsb (fun keyword => includes t keyword) styleKeywords = true.
Proof. unfold extractStyles. apply filter_In. Qed.

(** X8. When two garments of an outfit carry the same tag and that tag
    contains a style keyword, the style coherence of the outfit is the full
    15 points, and the score is at least 70. *)
Theorem shared_style_bonus (l1 l2 l3 : list Garment.t) (g1 g2 : Garment.t)
    (t mood : string) (all : list Garment.t) :
  In t (Garment.tags g1) -> In t (Garment.tags g2) ->
  existsb (fun keyword => includes t keyword) styleKeywords = true ->
  let gs := l1 ++ g1 :: l2 ++ g2 :: l3 in
  scoreStyleCoherence gs = 15
  /\ (forall s, scoreOutfit gs mood all = Ok s -> 70 <= s).
Proof.
  intros Ht1 Ht2 Hstyle gs.
  assert (2 <= List.length gs)%nat as Hlen.
  { unfold gs. rewrite length_app. simpl. rewrite length_app. simpl. lia. }
  assert (scoreStyleCoherence gs = 15) as Hscore.
  { unfold scoreStyleCoherence.
    destruct (List.length gs <? 2)%nat eqn:H; [apply Nat.ltb_lt in H; lia|].
    assert (exists a b, flat_map (fun g => extractStyles (Garment.tags g)) gs
                        = a ++ t :: b /\ In t b) as [a [b [Hsplit Hb]]].
    { assert (In t (extractStyles (Garment.tags g1))) as H1
          by now apply extractStyles_In.
      assert (In t (extractStyles (Garment.tags g2))) as H2
          by now apply extractStyles_In.
      apply in_split in H1 as [a1 [b1 H1]].
      unfold gs. rewrite flat_map_app. simpl. rewrite H1, flat_map_app. simpl.
      exists (flat_map (fun g => extractStyles (Garment.tags g)) l1 ++ a1).
      eexists. split.
      - rewrite <- !app_assoc. simpl. reflexivity.
      - apply in_or_app. right. apply in_or_app. right.
        apply in_or_app. now left. }
    rewrite Hsplit.
    destruct (List.length (a ++ t :: b) =? 0)%nat eqn:H0.
    { apply Nat.eqb_eq in H0. rewrite length_app in H0. simpl in H0. lia. }
    pose proof (repeated_later_found a b t Hb) as Hrep.
    destruct (repeated_later (a ++ t :: b)); [congruence | reflexivity]. }
  split; [exact Hscore|].
  intros s H. unfold scoreOutfit in H.
  apply bind_Ok in H as [moodScore [Hmood H]].
  apply bind_Ok in H as [occasionScore [Hocc H]].
  apply Ok_inj in H. subst s.
  apply scoreMoodAlignment_range in Hmood.
  apply scoreOccasionMatching_range in Hocc.
  pose proof (scoreColorHarmony_range gs).
  pose proof (scoreVersatility_range gs).
  pose proof (scoreDiversity_range gs).
  cbv zeta. fold gs. lia.
Qed.

Lemma shared_style_bonus_witness :
  scoreStyleCoherence [blue_linen_shirt; black_skinny_jeans; white_sneakers]
  = 15.
Proof.
  refine (proj1 (shared_style_bonus [] [black_skinny_jeans] []
                   blue_linen_shirt white_sneakers "casual" "casual" []
                   _ _ eq_refl)).
  - left. reflexivity.
  - left. reflexivity.
Defined.

(** *** What a returned outfit carries *)

Lemma generateReasons_front (pieces : list Garment.t) (mood : string) :
  exists front, generateReasons pieces mood = front ++ [moodDescription mood].
Proof. unfold generateReasons. cbv zeta. eexists. reflexivity. Qed.

Lemma string_app_assoc (a b c : string) :
  ((a ++ b) ++ c = a ++ b ++ c)%string.
Proof. induction a as [|ch a IH]; simpl; [reflexivity | now rewrite IH]. Qed.

Lemma join_last (sep : string) (l : list string) (x : string) :
  exists pre, join sep (l ++ [x]) = (pre ++ x)%string.
Proof.
  induction l as [|y l [pre IH]]; simpl.
  - now exists ""%string.
  - destruct (l ++ [x]) as [|z r] eqn:Hl; [now destruct l|].
    rewrite IH. exists (y ++ sep ++ pre)%string.
    now rewrite !string_app_assoc.
Qed.

(** X9. Every returned outfit echoes the request (its user, weather and
    mood, the mood being left absent even though the outfit was scored as
    "casual"), and its explanation ends with the closing description of
    the request's mood. *)
Theorem returned_outfit_explained (clock : nat -> Z) (gs : list Garment.t)
    (input : Input.t) (out : Output.t) (o : Outfit.t) :
  generateOutfits clock gs input = Ok out -> In o (Output.outfits out) ->
  Outfit.userId o = Input.userId input
  /\ Outfit.contextWeather o = Input.weather input
  /\ Outfit.contextMood o = Input.mood input
  /\ exists front,
       Outfit.explanation o
       = (front ++ closing_description (Input.mood input))%string.
Proof.
  intros Hout Ho.
  destruct (returned_outfit_origin clock gs input out o Hout Ho)
    as [fs [cs [c [j [Hfs [Hcs [Hc ->]]]]]]].
  repeat split.
  destruct (generateCandidates_In fs _ cs c Hcs Hc)
    as [pieces [Hcomp [_ [Hscore Hreasons]]]].
  simpl. rewrite Hreasons.
  destruct (generateReasons_front pieces (mood_or_casual input)) as [front ->].
  rewrite map_app. simpl.
  rewrite moodDescription_plain.
  - apply join_last.
  - destruct Hcomp as [top [bottom [shoe [accessory [_ [_ [_ [_ ->]]]]]]]].
    eapply scoreOutfit_Ok_plain. exact Hscore.
Qed.

Lemma returned_outfit_explained_witness :
  exists out o,
    generateOutfits (ticking 1000) [wool_sweater; khaki_chinos]
      (request (Some "cozy") None None) = Ok out
    /\ In o (Output.outfits out)
    /\ exists front,
         Outfit.explanation o = (front ++ "Comfortable and warm")%string.
Proof.
  eexists. eexists. split; [cbv; reflexivity|]. split; [left; reflexivity|].
  refine (proj2 (proj2 (proj2
            (returned_outfit_explained (ticking 1000)
               [wool_sweater; khaki_chinos]
               (request (Some "cozy") None None) _ _
               eq_refl (or_introl eq_refl))))).
Defined.

(** *** Outfit identifiers *)

Section Identifiers.

Lemma digits_without_dash (d : Decimal.uint) :
  includes (NilEmpty.string_of_uint d) "-" = false.
Proof. induction d; simpl; auto. Qed.

Lemma string_of_nat_without_dash (n : nat) :
  includes (string_of_nat n) "-" = false.
Proof.
  unfold string_of_nat, NilZero.string_of_uint.
  destruct (Nat.to_uint n); try apply digits_without_dash. reflexivity.
Qed.

Lemma to_uint_nonnil (n : nat) : Nat.to_uint n <> Decimal.Nil.
Proof.
  pose proof (DecimalNat.Unsigned.to_of (Nat.to_uint n)) as H.
  rewrite DecimalNat.Unsigned.of_to in H. rewrite H.
  apply DecimalFacts.unorm_nonnil.
Qed.

Lemma string_of_nat_inj (n m : nat) :
  string_of_nat n = string_of_nat m -> n = m.
Proof.
  unfold string_of_nat. intros H.
  apply (f_equal NilZero.uint_of_string) in H.
  rewrite !NilZero.usu in H by apply to_uint_nonnil.
  injection H as H. now apply DecimalNat.Unsigned.to_uint_inj.
Qed.

Lemma string_app_inv_head (a b c : string) :
  (a ++ b = a ++ c)%string -> b = c.
Proof. induction a as [|ch a IH]; simpl; [tauto|]. intros [= H]. auto. Qed.

(** Two texts that end with a dash followed by dash-free text are equal
    only if these endings are. *)
Lemma dash_suffix_inj (x y d1 d2 : string) :
  includes d1 "-" = false -> includes d2 "-" = false ->
  (x ++ "-" ++ d1 = y ++ "-" ++ d2)%string -> d1 = d2.
Proof.
  intros H1 H2. revert y. induction x as [|c x IH]; intros [|c' y] H;
    simpl in H.
  - now injection H.
  - injection H as _ H. exfalso.
    assert (includes d1 "-" = true) as Hin
        by (apply includes_iff_app; now exists y, d2).
    congruence.
  - injection H as _ H. exfalso.
    assert (includes d2 "-" = true) as Hin
        by (apply includes_iff_app; now exists x, d1).
    congruence.
  - injection H as _ H. eauto.
Qed.

Lemma toOutfit_id_inj (clock : nat -> Z) (input : Input.t) (i j : nat)
    (c c' : Candidate.t) :
  Outfit.id (toOutfit clock input i c) = Outfit.id (toOutfit clock input j c') ->
  i = j.
Proof.
  simpl. intros H. injection H as H.
  apply (dash_suffix_inj _ _ (string_of_nat i) (string_of_nat j)) in H;
    try apply string_of_nat_without_dash.
  now apply string_of_nat_inj.
Qed.

Lemma mapi_from_In_ge {A B} (f : nat -> A -> B) (l : list A) (i : nat) (y : B) :
  In y (mapi_from i f l) -> exists j x, (i <= j)%nat /\ y = f j x.
Proof.
  revert i; induction l as [|x l IH]; intros i; simpl; [contradiction|].
  intros [<-|Hy].
  - exists i, x. split; [lia | reflexivity].
  - destruct (IH _ Hy) as [j [x' [Hj ->]]]. exists j, x'.
    split; [lia | reflexivity].
Qed.

Lemma mapi_from_ids_NoDup (clock : nat -> Z) (input : Input.t)
    (l : list Candidate.t) (i : nat) :
  NoDup (map Outfit.id (mapi_from i (toOutfit clock input) l)).
Proof.
  revert i; induction l as [|c l IH]; intros i; simpl; constructor.
  - intros Hin. apply in_map_iff in Hin as [o [Hid Ho]].
    apply mapi_from_In_ge in Ho as [j [c' [Hj ->]]].
    apply (toOutfit_id_inj clock input j i c' c) in Hid. lia.
  - apply IH.
Qed.

End Identifiers.

(** X10. The ids of the outfits of one response are pairwise distinct,
    whatever the clock returns (even the same millisecond for every
    outfit): each id ends with the rank of its outfit. *)
Theorem outfit_ids_distinct (clock : nat -> Z) (gs : list Garment.t)
    (input : Input.t) (out : Output.t) :
  generateOutfits clock gs input = Ok out ->
  NoDup (map Outfit.id (Output.outfits out)).
Proof.
  intros Hout. apply generateOutfits_outcome, outcome_outfits in Hout.
  destruct Hout as [-> | [fs [cs [_ [_ ->]]]]]; [constructor|].
  apply mapi_from_ids_NoDup.
Qed.

Lemma outfit_ids_distinct_witness :
  exists out,
    generateOutfits (fun _ => 1000) MOCK_GARMENTS (request None None None)
    = Ok out
    /\ NoDup (map Outfit.id (Output.outfits out)).
Proof.
  eexists. split; [cbv; reflexivity|].
  refine (outfit_ids_distinct (fun _ => 1000) MOCK_GARMENTS
            (request None None None) _ eq_refl).
Defined.

(** *** The overall explanation *)

(** X11. The overall explanation is the generic sentence exactly when the
    request carries no weather, no mood and no temperature (an empty text
    counting as none). *)
Theorem generateExplanation_generic (input : Input.t) :
  generateExplanation input = "Outfit recommendations based on your wardrobe."
  <-> truthy (Input.weather input) = false
      /\ truthy (Input.mood input) = false
      /\ Input.temperature input = None.
Proof.
  unfold generateExplanation.
  destruct (Input.weather input) as [w|], (Input.mood input) as [m|],
    (Input.temperature input) as [t|];
    try destruct (truthy (Some w)) eqn:Hw; try destruct (truthy (Some m)) eqn:Hm;
    simpl; split; try (intros [_ [_ H]]; discriminate H);
    try (intros [H _]; discriminate H);
    try (intros [_ [H _]]; discriminate H);
    try (intros H; discriminate H); try tauto.
Qed.

(** *** Reasons *)

Lemma moodDescription_text (mood : string) :
  mem mood ObjectPrototypeKeys = false ->
  exists s, moodDescription mood = Text s.
Proof.
  intros Hk. unfold moodDescription. rewrite (get_plain _ _ _ Hk). eauto.
Qed.

Lemma generateReasons_texts (pieces : list Garment.t) (mood : string) :
  mem mood ObjectPrototypeKeys = false ->
  Forall (fun r => exists s, r = Text s) (generateReasons pieces mood)
  /\ (1 <= List.length (generateReasons pieces mood) <= 6)%nat.
Proof.
  intros Hk. destruct (moodDescription_text mood Hk) as [closing Hclosing].
  unfold generateReasons. cbv zeta. rewrite Hclosing.
  repeat match goal with
         | |- context [if ?b then _ else _] => destruct b
         end;
    (split; [repeat constructor; eauto | simpl; lia]).
Qed.

(** X12. The reasons of a generated candidate are between one and six
    texts: the inherited member that [moodDescriptions[mood]] would yield
    for a mood such as "toString" never reaches a reasons list, because
    scoring the candidate throws first. *)
Theorem candidate_reasons_are_texts (fs : list Garment.t) (mood : string)
    (cs : list Candidate.t) (c : Candidate.t) :
  generateCandidates fs mood = Ok cs -> In c cs ->
  Forall (fun r => exists s, r = Text s) (Candidate.reasons c)
  /\ (1 <= List.length (Candidate.reasons c) <= 6)%nat.
Proof.
  intros Hcs Hc.
  destruct (generateCandidates_In fs mood cs c Hcs Hc)
    as [pieces [Hcomp [_ [Hscore ->]]]].
  apply generateReasons_texts.
  destruct Hcomp as [top [bottom [shoe [accessory [_ [_ [_ [_ ->]]]]]]]].
  eapply scoreOutfit_Ok_plain. exact Hscore.
Qed.

Lemma candidate_reasons_are_texts_witness :
  exists c,
    generateCandidates [wool_sweater; khaki_chinos] "zen" = Ok [c]
    /\ Forall (fun r => exists s, r = Text s) (Candidate.reasons c).
Proof.
  eexists. split; [cbv; reflexivity|].
  refine (proj1 (candidate_reasons_are_texts [wool_sweater; khaki_chinos]
                   "zen" _ _ eq_refl (or_introl eq_refl))).
Defined.


(* ================================================================= *)
(** ** The closet and the home page *)

Lemma returned_outfit_pieces (clock : nat -> Z) (gs : list Garment.t)
    (input : Input.t) (out : Output.t) (o : Outfit.t) :
  generateOutfits clock gs input = Ok out -> In o (Output.outfits out) ->
  exists pieces,
    composed_of gs pieces /\ Outfit.garmentIds o = map Garment.id pieces.
Proof.
  intros Hout Ho.
  destruct (returned_outfit_origin clock gs input out o Hout Ho)
    as [fs [cs [c [j [Hfs [Hcs [Hc ->]]]]]]].
  destruct (generateCandidates_In fs _ cs c Hcs Hc)
    as [pieces [Hcomp [Hids _]]].
  exists pieces. split; [|exact Hids].
  apply (composed_of_incl fs gs); [|assumption].
  now apply filterByContext_incl with input.
Qed.

Lemma mapi_from_Forall2 {A B} (P : A -> B -> Prop) (f : nat -> A -> B)
    (l : list A) (i : nat) :
  (forall j x, In x l -> P x (f j x)) -> Forall2 P l (mapi_from i f l).
Proof.
  revert i; induction l as [|x l IH]; intros i Hf; simpl; constructor.
  - apply Hf. now left.
  - apply IH. intros j y Hy. apply Hf. now right.
Qed.

Section Closet.

Variables (items : list ClosetItem.t) (userId : string).

Lemma closet_garment_In (g : Garment.t) :
  In g (closetItemsToGarments items userId) ->
  exists item, In item items /\ g = closetItemToGarment item userId.
Proof.
  unfold closetItemsToGarments. rewrite in_map_iff.
  intros [item [<- Hitem]]. now exists item.
Qed.

Lemma closet_no_accessory (g : Garment.t) :
  In g (closetItemsToGarments items userId) ->
  Garment.category g <> accessories.
Proof.
  intros Hg. apply closet_garment_In in Hg as [item [_ ->]].
  simpl. now destruct (ClosetItem.category item).
Qed.

Lemma find_by_id (id : string) :
  In id (map ClosetItem.id items) ->
  exists item,
    find (fun i => (ClosetItem.id i =? id)%string) items = Some item
    /\ ClosetItem.id item = id.
Proof.
  induction items as [|i l IH]; simpl; [contradiction|].
  destruct (ClosetItem.id i =? id)%string eqn:Hi.
  - intros _. exists i. split; [reflexivity | now apply String.eqb_eq].
  - intros [H|H]; [|now apply IH].
    apply String.eqb_neq in Hi. contradiction.
Qed.

Lemma shownGarments_ids (ids : list string) :
  incl ids (map ClosetItem.id items) ->
  map Shown.id (flat_map opt_list (map (shownGarment items) ids)) = ids.
Proof.
  induction ids as [|id ids IH]; intros Hincl; simpl; [reflexivity|].
  destruct (find_by_id id) as [item [Hfind Hid]];
    [apply Hincl; now left|].
  unfold shownGarment at 1. rewrite Hfind. simpl.
  rewrite Hid, IH; [reflexivity|].
  intros x Hx. apply Hincl. now right.
Qed.

End Closet.

(** X13. Round trip of the home page: when the wardrobe given to the
    service is the converted closet, every outfit that comes back has 2 or
    3 garment ids (a closet has no accessory), and each id is found again
    among the closet items, so that the page displays as many garments as
    the outfit has ids, in the same order, with the same explanation. *)
Theorem closet_round_trip (clock : nat -> Z) (items : list ClosetItem.t)
    (userId : string) (input : Input.t) (out : Output.t) :
  generateOutfits clock (closetItemsToGarments items userId) input = Ok out ->
  Forall2
    (fun (o : Outfit.t) (shown : Shown.outfit) =>
       map Shown.id (Shown.garments shown) = Outfit.garmentIds o
       /\ (2 <= List.length (Shown.garments shown) <= 3)%nat
       /\ Shown.explanation shown = Outfit.explanation o)
    (Output.outfits out)
    (convertedOutfits items (Output.outfits out)).
Proof.
  intros Hout.
  assert (forall o, In o (Output.outfits out) ->
            map Shown.id
              (flat_map opt_list
                 (map (shownGarment items) (Outfit.garmentIds o)))
            = Outfit.garmentIds o
            /\ (2 <= List.length (Outfit.garmentIds o) <= 3)%nat) as Hall.
  { intros o Ho.
    destruct (returned_outfit_pieces clock _ input out o Hout Ho)
      as [pieces [Hcomp Hids]].
    split.
    - apply shownGarments_ids. rewrite Hids. intros id Hid.
      apply in_map_iff in Hid as [g [<- Hg]].
      apply (composed_of_In _ pieces g Hcomp) in Hg.
      apply closet_garment_In in Hg as [item [Hitem ->]].
      apply in_map_iff. now exists item.
    - rewrite Hids, length_map.
      destruct Hcomp as [top [bottom [shoe [accessory [_ [_ [_ [Hacc ->]]]]]]]].
      destruct accessory as [a|].
      + destruct (Hacc a eq_refl) as [Ha Hcat].
        now apply closet_no_accessory in Ha.
      + destruct shoe; simpl; lia. }
  unfold convertedOutfits, mapi. apply mapi_from_Forall2.
  intros j o Ho. destruct (Hall o Ho) as [Hids Hlen]. simpl.
  split; [exact Hids|]. split; [|reflexivity].
  pose proof (f_equal (@List.length string) Hids) as Hl.
  rewrite length_map in Hl. rewrite Hl. exact Hlen.
Qed.

Lemma closet_round_trip_witness :
  exists out,
    generateOutfits (ticking 1000)
      (closetItemsToGarments SAMPLE_CLOSET "default-user")
      (Input.mk "default-user" (Some "bold") (Some "cloudy") (Some 12) None
         (Some 30)) = Ok out
    /\ List.length (Output.outfits out) = 1%nat
    /\ Forall2
         (fun (o : Outfit.t) (shown : Shown.outfit) =>
            map Shown.id (Shown.garments shown) = Outfit.garmentIds o
            /\ (2 <= List.length (Shown.garments shown) <= 3)%nat
            /\ Shown.explanation shown = Outfit.explanation o)
         (Output.outfits out)
         (convertedOutfits SAMPLE_CLOSET (Output.outfits out)).
Proof.
  eexists. split; [cbv; reflexivity|]. split; [reflexivity|].
  refine (closet_round_trip (ticking 1000) SAMPLE_CLOSET "default-user"
            (Input.mk "default-user" (Some "bold") (Some "cloudy") (Some 12)
               None (Some 30)) _ eq_refl).
Defined.

(** *** Temperature and the closet *)

Lemma inferMaterial_values (name : string) :
  In (inferMaterial name)
    ["wool"; "cotton"; "linen"; "cashmere"; "denim"; "leather"; "silk"].
Proof.
  unfold inferMaterial. cbv zeta.
  repeat match goal with
         | |- context [if ?b then _ else _] => destruct b
         end; simpl; tauto.
Qed.

Lemma inferMaterial_wool (name : string) :
  inferMaterial name = "wool" <-> contains_ci name "wool".
Proof.
  rewrite <- includes_lower_iff. unfold inferMaterial. cbv zeta.
  destruct (includes (toLowerCase name) "wool"); [tauto|].
  split; [|discriminate].
  repeat match goal with
         | |- context [if ?b then _ else _] => destruct b
         end; discriminate.
Qed.

(** X14. For a garment converted from a closet item the temperature check
    depends on two things only, whether the item is outerwear and whether
    its name mentions wool: above 25 degrees it passes exactly when it is
    neither, below 10 degrees exactly when it is one of them (every other
    inferred material, the default "cotton" included, fails the cold check). *)
Theorem closet_temperature_check (item : ClosetItem.t) (userId : string)
    (t : Z) :
  let g := closetItemToGarment item userId in
  (25 < t ->
   (isTemperatureAppropriate g t = true
    <-> ClosetItem.category item <> ClosetItem.outerwear
        /\ ~ contains_ci (ClosetItem.name item) "wool"))
  /\ (t < 10 ->
      (isTemperatureAppropriate g t = true
       <-> ClosetItem.category item = ClosetItem.outerwear
           \/ contains_ci (ClosetItem.name item) "wool")).
Proof.
  intros g. unfold g, isTemperatureAppropriate, material_lower,
    closetItemToGarment. cbn [Garment.material Garment.category].
  pose proof (inferMaterial_wool (ClosetItem.name item)) as Hwool.
  pose proof (inferMaterial_values (ClosetItem.name item)) as Hvalues.
  set (m := inferMaterial (ClosetItem.name item)) in *.
  split; intros Ht.
  - destruct (t >? 25) eqn:Hhot; [|lia].
    destruct Hvalues as [H|[H|[H|[H|[H|[H|[H|[]]]]]]]]; rewrite <- H in *;
      destruct (ClosetItem.category item); cbn; split; intros Hx;
      try reflexivity; try discriminate;
      try (split; [discriminate|]; intros Hc; apply Hwool in Hc;
           discriminate);
      try (destruct Hx as [Hx _]; congruence);
      try (destruct Hx as [_ Hx]; exfalso; apply Hx, Hwool; reflexivity).
  - destruct (t >? 25) eqn:Hhot; [lia|].
    destruct (t <? 10) eqn:Hcold; [|lia].
    destruct Hvalues as [H|[H|[H|[H|[H|[H|[H|[]]]]]]]]; rewrite <- H in *;
      destruct (ClosetItem.category item); cbn; split; intros Hx;
      try reflexivity; try discriminate;
      try (now left); try (right; apply Hwool; reflexivity);
      try (destruct Hx as [Hx|Hx]; [discriminate | apply Hwool in Hx;
                                                   discriminate]).
Qed.

Lemma closet_temperature_check_witness :
  isTemperatureAppropriate
    (closetItemToGarment cotton_oxford "default-user") 30 = true
  /\ isTemperatureAppropriate
       (closetItemToGarment oversized_wool_coat "default-user") 5 = true.
Proof.
  split.
  - apply (proj1 (closet_temperature_check cotton_oxford "default-user" 30));
      [lia|].
    split; [discriminate|].
    intros H. apply inferMaterial_wool in H. discriminate.
  - apply (proj2 (closet_temperature_check oversized_wool_coat
                    "default-user" 5)); [lia|].
    left. reflexivity.
Defined.

(** X15. A closet item whose name mentions wool becomes a winter garment of
    material "wool" (also among its tags); the season check turns it down
    under sunny, cloudy and hot weather and lets it through under rainy,
    snowy, windy and cold weather. *)
Theorem wool_item_is_winter_wear (item : ClosetItem.t) (userId : string) :
  contains_ci (ClosetItem.name item) "wool" ->
  let g := closetItemToGarment item userId in
  Garment.material g = Some "wool"
  /\ Garment.season g = "winter"
  /\ In "wool" (Garment.tags g)
  /\ (forall w t, In w ["sunny"; "cloudy"; "hot"] ->
                  isSeasonAppropriate (Garment.season g) w t = Ok false)
  /\ (forall w t, In w ["rainy"; "snowy"; "windy"; "cold"] ->
                  isSeasonAppropriate (Garment.season g) w t = Ok true).
Proof.
  intros Hwool g.
  assert (inferMaterial (ClosetItem.name item) = "wool") as Hmat
      by now apply inferMaterial_wool.
  assert (Garment.season g = "winter") as Hseason.
  { apply includes_lower_iff in Hwool. unfold g. simpl. unfold inferSeason.
    cbv zeta. now rewrite Hwool. }
  split; [unfold g; simpl; now rewrite Hmat|].
  split; [exact Hseason|]. split; [|split].
  - unfold g. simpl. unfold buildTags. cbv zeta. rewrite Hmat.
    apply in_or_app. left. apply in_or_app. right. now left.
  - rewrite Hseason. intros w t Hw. simpl in Hw.
    destruct Hw as [<-|[<-|[<-|[]]]]; reflexivity.
  - rewrite Hseason. intros w t Hw. simpl in Hw.
    destruct Hw as [<-|[<-|[<-|[<-|[]]]]]; reflexivity.
Qed.

Lemma wool_item_is_winter_wear_witness :
  Garment.season (closetItemToGarment oversized_wool_coat "default-user")
  = "winter".
Proof.
  refine (proj1 (proj2 (wool_item_is_winter_wear oversized_wool_coat
                          "default-user" _))).
  now exists "Oversized ", "wool", " coat".
Defined.

(** *** Weather codes *)

(** X16. [codeToWeatherLabel] always answers one of "sunny", "cloudy",
    "rainy", "snowy" and "foggy", never a name inherited from
    [Object.prototype], so that the season check does not throw on it. It
    answers "foggy" exactly for the codes 45 and 48; "foggy" is not a
    weather the service knows, and under it only all-season garments pass
    the season check. *)
Theorem codeToWeatherLabel_range (code : Z) :
  let label := codeToWeatherLabel code in
  In label ["sunny"; "cloudy"; "rainy"; "snowy"; "foggy"]
  /\ mem label ObjectPrototypeKeys = false
  /\ (label = "foggy" <-> code = 45 \/ code = 48)
  /\ (label <> "foggy" -> mem label WeatherConditions = true)
  /\ (label = "foggy" ->
      forall season t,
        isSeasonAppropriate season label t
        = Ok (season =? "all-season")%string).
Proof.
  intros label.
  assert (In label ["sunny"; "cloudy"; "rainy"; "snowy"; "foggy"]) as Hin.
  { unfold label, codeToWeatherLabel.
    repeat match goal with
           | |- context [if ?b then _ else _] => destruct b
           end; simpl; tauto. }
  assert (label = "foggy" <-> code = 45 \/ code = 48) as Hfoggy.
  { unfold label, codeToWeatherLabel.
    destruct (code =? 0) eqn:H0; [split; [discriminate | lia]|].
    destruct (code =? 1) eqn:H1; [split; [discriminate | lia]|].
    destruct (code =? 2) eqn:H2; [split; [discriminate | lia]|].
    destruct (code =? 3) eqn:H3; [split; [discriminate | lia]|].
    destruct ((code =? 45) || (code =? 48)) eqn:H45.
    { split; [intros _ | reflexivity].
      apply orb_true_iff in H45. lia. }
    apply orb_false_iff in H45.
    repeat match goal with
           | |- context [if ?b then _ else _] => destruct b
           end; (split; [discriminate | lia]). }
  split; [exact Hin|]. split; [|split; [exact Hfoggy|split]].
  - simpl in Hin.
    destruct Hin as [<-|[<-|[<-|[<-|[<-|[]]]]]]; reflexivity.
  - intros Hne. simpl in Hin.
    destruct Hin as [<-|[<-|[<-|[<-|[H|[]]]]]]; try reflexivity.
    now symmetry in H.
  - intros -> season t. now apply isSeasonAppropriate_unknown.
Qed.

(* ================================================================= *)
(** ** The transport *)

Lemma rank_length_le (cs : list Candidate.t) (input : Input.t) :
  0 <= limit_or_6 input ->
  Z.of_nat (List.length (rank cs input)) <= limit_or_6 input.
Proof.
  intros Hlimit. unfold rank. rewrite slice0_nonneg by assumption.
  rewrite length_firstn. lia.
Qed.

Lemma outfits_within_limit (clock : nat -> Z) (gs : list Garment.t)
    (input : Input.t) (out : Output.t) :
  generateOutfits clock gs input = Ok out ->
  0 <= limit_or_6 input ->
  Z.of_nat (List.length (Output.outfits out)) <= limit_or_6 input.
Proof.
  intros Hout Hlimit. apply generateOutfits_outcome, outcome_outfits in Hout.
  destruct Hout as [-> | [fs [cs [_ [_ ->]]]]]; [simpl; lia|].
  rewrite mapi_length. now apply rank_length_le.
Qed.

(** A request whose mood and weather name no inherited member is answered. *)
Lemma generateOutfits_answers (clock : nat -> Z) (gs : list Garment.t)
    (input : Input.t) :
  (forall w, Input.weather input = Some w ->
             mem w ObjectPrototypeKeys = false) ->
  (forall m, Input.mood input = Some m ->
             mem m ObjectPrototypeKeys = false) ->
  exists out, generateOutfits clock gs input = Ok out.
Proof.
  intros Hw Hm. destruct gs as [|g0 gs'] eqn:Hgs.
  { eexists. reflexivity. }
  rewrite <- Hgs.
  destruct (filterByContext_total gs input Hw) as [fs Hfs].
  destruct fs as [|f0 fs'] eqn:Hfs0.
  { exists (empty_result no_suitable_message).
    apply generateOutfits_outcome. apply NoEligibleGarments; [|assumption].
    now rewrite Hgs. }
  rewrite <- Hfs0 in Hfs.
  destruct (generateCandidates_total fs (mood_or_casual input)
              (mood_or_casual_plain input Hm)) as [cs Hcs].
  destruct (generateOutfits_completes clock gs fs input cs) as [out [Hout _]];
    try assumption; try (rewrite Hgs; discriminate);
    try (rewrite Hfs0; discriminate).
  now exists out.
Qed.



Lemma enumerated_mood_plain (m : string) :
  mem m Moods = true -> mem m ObjectPrototypeKeys = false.
Proof.
  intros H. apply mem_iff_In in H. simpl in H.
  repeat (destruct H as [<-|H]; [reflexivity|]). contradiction.
Qed.

Lemma enumerated_weather_plain (w : string) :
  mem w WeatherConditions = true -> mem w ObjectPrototypeKeys = false.
Proof.
  intros H. apply mem_iff_In in H. simpl in H.
  repeat (destruct H as [<-|H]; [reflexivity|]). contradiction.
Qed.

Lemma mock_garments_of_other_user (userId : string) :
  userId <> "user1" ->
  map snd (filter (fun g => (fst g =? userId)%string) MOCK_GARMENT_OWNERS)
  = [].
Proof.
  intros Huser. apply String.eqb_neq in Huser.
  rewrite String.eqb_sym in Huser.
  unfold MOCK_GARMENT_OWNERS. induction MOCK_GARMENTS as [|g l IH];
    [reflexivity|].
  cbn [map filter fst]. now rewrite Huser.
Qed.

(** X18. An input that the schema of [recommendationRouter.generate]
    accepts never ends in an internal error: the procedure returns the
    response of the service, with at most [limitCount] outfits (5 when it is
    not given) and so never more than 10; without [garments], a user other
    than "user1" gets the empty-wardrobe response. *)
Theorem generate_accepted (clock : nat -> Z) (input : Body.t) :
  schema_accepts input = true ->
  exists out,
    generate clock input = Data out
    /\ Z.of_nat (List.length (Output.outfits out))
       <= match Body.limitCount input with Some n => n | None => 5 end
       <= 10
    /\ (Body.garments input = None -> Body.userId input <> "user1" ->
        out = empty_result empty_wardrobe_message).
Proof.
  intros Hschema. unfold generate. rewrite Hschema. cbn [negb]. cbv zeta.
  unfold schema_accepts in Hschema.
  apply andb_true_iff in Hschema as [Hschema Hseasons].
  apply andb_true_iff in Hschema as [Hschema Hlimit].
  apply andb_true_iff in Hschema as [Hschema Htemperature].
  apply andb_true_iff in Hschema as [Hmood Hweather].
  match goal with
  | |- context [generateOutfits clock ?gs ?inp] =>
      destruct (generateOutfits_answers clock gs inp) as [out Hout]
  end.
  - simpl. intros w Hw. rewrite Hw in *. now apply enumerated_weather_plain.
  - simpl. intros m Hm. rewrite Hm in *. now apply enumerated_mood_plain.
  - rewrite Hout. exists out. split; [reflexivity|]. split.
    + pose proof (outfits_within_limit _ _ _ _ Hout) as Hlen.
      unfold limit_or_6 in Hlen. cbn in Hlen.
      destruct (Body.limitCount input) as [n|].
      * apply andb_true_iff in Hlimit as [Hlow Hhigh].
        apply Z.leb_le in Hlow, Hhigh.
        destruct (n =? 0) eqn:Hzero; lia.
      * cbn in Hlen. lia.
    + intros Hnone Huser. rewrite Hnone in Hout.
      rewrite (mock_garments_of_other_user _ Huser) in Hout.
      now apply Ok_inj in Hout.
Qed.

Lemma generate_accepted_witness :
  exists out,
    generate (ticking 1000)
      (Body.mk "user1" (Some "cozy") (Some "rainy") (Some 8) None (Some 3)
         None) = Data out
    /\ Z.of_nat (List.length (Output.outfits out)) <= 3 <= 10.
Proof.
  destruct (generate_accepted (ticking 1000)
              (Body.mk "user1" (Some "cozy") (Some "rainy") (Some 8) None
                 (Some 3) None) eq_refl) as [out [Hout [Hlen _]]].
  exists out. split; [exact Hout | exact Hlen].
Defined.

(* ================================================================= *)
(** ** Shuffling the displayed outfits *)

Section Arrays.

Context {A : Type}.

Lemma array_set_middle (l1 l2 : list (option A)) (x v : option A) :
  array_set (l1 ++ x :: l2) (List.length l1) v = l1 ++ v :: l2.
Proof. induction l1 as [|y l1 IH]; simpl; [reflexivity | now rewrite IH]. Qed.

Lemma array_get_middle (l1 l2 : list (option A)) (x : option A) :
  array_get (l1 ++ x :: l2) (List.length l1) = x.
Proof. unfold array_get. apply nth_middle. Qed.

Lemma split_at (l : list A) (k : nat) :
  (k < List.length l)%nat ->
  exists l1 x l2, l = l1 ++ x :: l2 /\ List.length l1 = k.
Proof.
  intros Hk. destruct (nth_error l k) as [x|] eqn:Hx.
  - apply nth_error_split in Hx as [l1 [l2 [-> Hlen]]]. now exists l1, x, l2.
  - apply nth_error_None in Hx. lia.
Qed.

Lemma array_swap_decomposed (m1 m2 m3 : list (option A)) (x y : option A) :
  array_swap (m1 ++ x :: m2 ++ y :: m3)
    (List.length m1 + 1 + List.length m2) (List.length m1)
  = m1 ++ y :: m2 ++ x :: m3.
Proof.
  unfold array_swap. rewrite array_get_middle.
  assert (forall v, m1 ++ v :: m2 ++ y :: m3 = (m1 ++ v :: m2) ++ y :: m3)
    as Hassoc by (intros v; now rewrite <- app_assoc).
  assert (forall v, List.length (m1 ++ v :: m2)
                    = (List.length m1 + 1 + List.length m2)%nat) as Hlen
      by (intros v; rewrite length_app; simpl; lia).
  rewrite (Hassoc x), <- (Hlen x), array_get_middle, array_set_middle.
  rewrite <- app_assoc. simpl. apply array_set_middle.
Qed.

(** Within the bounds of an array without hole, a swap is a transposition. *)
Lemma array_swap_perm (l : list A) (i j : nat) :
  (j <= i)%nat -> (i < List.length l)%nat ->
  exists l', array_swap (map Some l) i j = map Some l' /\ Permutation l' l.
Proof.
  intros Hji Hi. destruct (Nat.eq_dec j i) as [->|Hne].
  - exists l. split; [|reflexivity].
    destruct (split_at l i Hi) as [l1 [x [l2 [-> Hlen]]]].
    unfold array_swap. rewrite map_app. simpl.
    rewrite <- Hlen, <- (length_map Some l1).
    now rewrite array_get_middle, !array_set_middle.
  - destruct (split_at l i Hi) as [l0 [a [l3 [-> Hlen0]]]].
    destruct (split_at l0 j) as [l1 [b [l2 [-> Hlen1]]]]; [lia|].
    exists (l1 ++ a :: l2 ++ b :: l3). split.
    + rewrite <- app_assoc. simpl. rewrite !map_app. simpl.
      rewrite !map_app. simpl.
      replace i with (List.length (map Some l1) + 1
                      + List.length (map Some l2))%nat
        by (rewrite !length_map; rewrite length_app in Hlen0;
            simpl in Hlen0; lia).
      replace j with (List.length (map Some l1))
        by (rewrite length_map; lia).
      apply array_swap_decomposed.
    + rewrite <- app_assoc. simpl. apply Permutation_app_head.
      transitivity (a :: b :: l2 ++ l3).
      { apply perm_skip. symmetry. apply Permutation_middle. }
      transitivity (b :: a :: l2 ++ l3); [apply perm_swap|].
      apply perm_skip, Permutation_middle.
Qed.

End Arrays.

Section Shuffle.

Context {A : Type} (pick : nat -> nat -> nat).

(** What [Math.floor(Math.random() * n)] promises: an index below [n]. *)
Hypothesis pick_below : forall call n, (0 < n)%nat -> (pick call n < n)%nat.

Lemma fisher_yates_perm (i call : nat) (l : list A) :
  (i < List.length l)%nat ->
  exists l',
    fisher_yates pick call i (map Some l) = map Some l' /\ Permutation l' l.
Proof.
  revert call l. induction i as [|i IH]; intros call l Hi; simpl.
  - now exists l.
  - assert (pick call (S (i + 1)) <= S i)%nat as Hj
        by (pose proof (pick_below call (S (i + 1))); lia).
    destruct (array_swap_perm l (S i) _ Hj Hi) as [l1 [-> Hperm1]].
    destruct (IH (S call) l1) as [l2 [-> Hperm2]].
    + rewrite (Permutation_length Hperm1). lia.
    + exists l2. split; [reflexivity|]. now transitivity l1.
Qed.

Lemma firstn_NoDup {B} (n : nat) (l : list B) :
  NoDup l -> NoDup (firstn n l).
Proof.
  intros H. rewrite <- (firstn_skipn n l) in H.
  now apply NoDup_app_remove_r in H.
Qed.

End Shuffle.

(** X19. Shuffling the displayed outfits, given that every
    [Math.floor(Math.random() * n)] is an index below [n]: a pool of at most
    6 outfits is shown in full, in some order (a permutation, nothing lost
    or repeated); from a larger pool exactly 6 outfits are shown, taken at
    6 different positions of the pool. No [undefined] is ever displayed. *)
Theorem handleShuffle_draws {A} (pick : nat -> nat -> nat) (pool : list A) :
  (forall call n, (0 < n)%nat -> (pick call n < n)%nat) ->
  ((List.length pool <= 6)%nat ->
   exists shown,
     handleShuffle pick pool = map Some shown /\ Permutation shown pool)
  /\ ((6 < List.length pool)%nat ->
      exists positions,
        handleShuffle pick pool = map (nth_error pool) positions
        /\ List.length positions = 6%nat
        /\ NoDup positions
        /\ Forall (fun k => (k < List.length pool)%nat) positions).
Proof.
  intros Hpick. unfold handleShuffle. split; intros Hlen.
  - destruct (List.length pool =? 0)%nat eqn:H0; [now exists pool|].
    apply Nat.eqb_neq in H0.
    destruct (List.length pool <=? 6)%nat eqn:H6;
      [|apply Nat.leb_gt in H6; lia].
    cbv zeta. rewrite length_map.
    apply (fisher_yates_perm pick Hpick). lia.
  - destruct (List.length pool =? 0)%nat eqn:H0;
      [apply Nat.eqb_eq in H0; lia|].
    destruct (List.length pool <=? 6)%nat eqn:H6;
      [apply Nat.leb_le in H6; lia|].
    cbv zeta. rewrite length_map, length_seq.
    destruct (fisher_yates_perm pick Hpick (List.length pool - 1) 0
                (seq 0 (List.length pool))) as [order [-> Hperm]];
      [rewrite length_seq; lia|].
    exists (firstn 6 order).
    assert (List.length order = List.length pool) as Horder
        by now rewrite (Permutation_length Hperm), length_seq.
    split; [|split; [|split]].
    + rewrite slice0_nonneg by lia. change (Z.to_nat 6) with 6%nat.
      rewrite firstn_map, map_map. reflexivity.
    + rewrite length_firstn. lia.
    + apply firstn_NoDup.
      apply (Permutation_NoDup (Permutation_sym Hperm)), seq_NoDup.
    + apply Forall_forall. intros k Hk. apply firstn_incl in Hk.
      apply (Permutation_in _ Hperm), in_seq in Hk. lia.
Qed.

Lemma handleShuffle_draws_witness :
  exists shown,
    handleShuffle (fun _ _ => 0%nat) [1; 2; 3] = map Some shown
    /\ Permutation shown [1; 2; 3].
Proof.
  refine (proj1 (handleShuffle_draws (fun _ _ => 0%nat) [1; 2; 3] _) _).
  - intros call n Hn. exact Hn.
  - simpl. lia.
Defined.
